(** * mplDTs: the Station of [mpldts/geometry/station.py]

    A shallow embedding of the [Station] class (a CMS Drift Tube chamber):
    its validated constructor, the transformer set-up that registers the
    Station->CMS and the two natural-view rotations, the super-layer lookup
    and the ingestion of per-cell attributes.

    Floating-point coordinates are embedded as exact rationals [Q]: every
    arithmetic step of the transformer set-up multiplies by 0, 1 or -1 or
    subtracts such a product, which is exact on finite floats. *)

From Stdlib Require Import ZArith QArith Qabs Lqa Lia String List.
From stdpp Require Import gmap strings list fin_maps pretty.

Local Open Scope string_scope.
Local Open Scope list_scope.
Local Open Scope Z_scope.

(** ** Exceptions and the state-and-exception monad *)

Inductive exn : Type :=
  | ValueError (msg : string)
  | TypeError (msg : string)
  | AttributeError (what : string)
  | GeometryError (what : string)
  | ConfigurationError (src tgt : string).

(** How a call ends: with a value, with an exception, or [Undetermined]:
    the run has reached code of a module that is not part of the sources at
    hand, and is followed no further; nothing is said about how the program
    goes on from there. *)
Inductive result (A : Type) : Type :=
  | Ok (a : A)
  | Raise (e : exn)
  | Undetermined (why : string).
Arguments Ok {A} a.
Arguments Raise {A} e.
Arguments Undetermined {A} why.

Definition is_ValueError {A} (r : result A) : bool :=
  match r with
  | Raise (ValueError _) => true
  | _ => false
  end.

Definition is_AttributeError {A} (r : result A) : bool :=
  match r with
  | Raise (AttributeError _) => true
  | _ => false
  end.

(** ** Numeric arrays: 3-vectors and 3x3 matrices (numpy) *)

Record vec3 : Type := V3 { vx : Q; vy : Q; vz : Q }.

Record mat3 : Type := Rows { row0 : vec3; row1 : vec3; row2 : vec3 }.

(** [array([a, b, c])] on integer literals. *)
Definition array (a b c : Z) : vec3 := V3 (inject_Z a) (inject_Z b) (inject_Z c).

(** [v * k] for an integer scalar [k]. *)
Definition vmul (v : vec3) (k : Z) : vec3 :=
  V3 (vx v * inject_Z k)%Q (vy v * inject_Z k)%Q (vz v * inject_Z k)%Q.

(** [array([r0, r1, r2])]: the three vectors become the rows. *)
Definition array2d (r0 r1 r2 : vec3) : mat3 := Rows r0 r1 r2.

(** [m.T] *)
Definition T (m : mat3) : mat3 :=
  Rows (V3 (vx (row0 m)) (vx (row1 m)) (vx (row2 m)))
       (V3 (vy (row0 m)) (vy (row1 m)) (vy (row2 m)))
       (V3 (vz (row0 m)) (vz (row1 m)) (vz (row2 m))).

Definition col0 (m : mat3) : vec3 := V3 (vx (row0 m)) (vx (row1 m)) (vx (row2 m)).
Definition col1 (m : mat3) : vec3 := V3 (vy (row0 m)) (vy (row1 m)) (vy (row2 m)).
Definition col2 (m : mat3) : vec3 := V3 (vz (row0 m)) (vz (row1 m)) (vz (row2 m)).

Definition dot (a b : vec3) : Q := (vx a * vx b + vy a * vy b + vz a * vz b)%Q.

(** [numpy.cross] *)
Definition cross (a b : vec3) : vec3 :=
  V3 (vy a * vz b - vz a * vy b)%Q
     (vz a * vx b - vx a * vz b)%Q
     (vx a * vy b - vy a * vx b)%Q.

(** [pytransform3d.rotations.perpendicular_to_vectors(a, b)] is the cross
    product of its two arguments (the source comments it as such). *)
Definition perpendicular_to_vectors (a b : vec3) : vec3 := cross a b.

(** The scalar triple product [a . (b x c)]: the determinant of the matrix
    with columns [a], [b], [c]. *)
Definition triple (a b c : vec3) : Q := dot a (cross b c).

Definition vec3_eqb (a b : vec3) : bool :=
  Qeq_bool (vx a) (vx b) && Qeq_bool (vy a) (vy b) && Qeq_bool (vz a) (vz b).

Definition mat3_eqb (m n : mat3) : bool :=
  vec3_eqb (row0 m) (row0 n) && vec3_eqb (row1 m) (row1 n) && vec3_eqb (row2 m) (row2 n).

Definition vzero : vec3 := V3 0 0 0.

(** The tolerance of the orthonormality check, 1e-9. *)
Definition tol : Q := 1 # 1000000000.

Definition near (a b : Q) : Prop := (Qabs (a - b) <= tol)%Q.

Definition nearb (a b : Q) : bool := Qle_bool (Qabs (a - b)) tol.

(** The three columns are mutually perpendicular unit vectors, up to [tol]. *)
Definition orthonormal (m : mat3) : Prop :=
  near (dot (col0 m) (col0 m)) 1 /\ near (dot (col1 m) (col1 m)) 1 /\
  near (dot (col2 m) (col2 m)) 1 /\ near (dot (col0 m) (col1 m)) 0 /\
  near (dot (col0 m) (col2 m)) 0 /\ near (dot (col1 m) (col2 m)) 0.

Definition orthonormalb (m : mat3) : bool :=
  nearb (dot (col0 m) (col0 m)) 1 && nearb (dot (col1 m) (col1 m)) 1 &&
  nearb (dot (col2 m) (col2 m)) 1 && nearb (dot (col0 m) (col1 m)) 0 &&
  nearb (dot (col0 m) (col2 m)) 0 && nearb (dot (col1 m) (col2 m)) 0.

(** ** The Transform Chain Manager *)

Record RigidTransform : Type :=
  { rotation_matrix : mat3; translation_vector : vec3 }.

Definition transform_eqb (a b : RigidTransform) : bool :=
  mat3_eqb (rotation_matrix a) (rotation_matrix b) &&
  vec3_eqb (translation_vector a) (translation_vector b).

Record TransformManager : Type :=
  { initial_frame : string; transforms : gmap (string * string) RigidTransform }.

(** Modelled from the spec: the constructor of [TransformManager]
    ([mpldts/geometry/transforms.py] is not part of the sources at hand): a
    manager that knows its initial frame and holds no transform yet. *)
Definition TransformManager_init (frame : string) : TransformManager :=
  {| initial_frame := frame; transforms := ∅ |}.

(** Modelled from the spec: [TransformManager.add], absent from the sources
    at hand. It registers the transform under the ordered pair of names, the
    translation defaulting to zero when omitted; re-registration with
    identical values is accepted, with different values it is a
    configuration error. *)
Definition TransformManager_add (tm : TransformManager) (src tgt : string)
    (rotation : mat3) (translation : option vec3) : result TransformManager :=
  let tr := {| rotation_matrix := rotation;
               translation_vector := default vzero translation |} in
  match transforms tm !! (src, tgt) with
  | Some old =>
      if transform_eqb old tr then Ok tm else Raise (ConfigurationError src tgt)
  | None =>
      Ok {| initial_frame := initial_frame tm;
            transforms := <[(src, tgt) := tr]> (transforms tm) |}
  end.

(** ** Python values carried by the cell records *)

Inductive pyval : Type :=
  | PyNone
  | PyBool (b : bool)
  | PyInt (n : Z)
  | PyFloat (q : Q)
  | PyStr (s : string).

(** Truth value of an object, as [all([...])] and [if] test it. *)
Definition truthy (v : pyval) : bool :=
  match v with
  | PyNone => false
  | PyBool b => b
  | PyInt n => negb (n =? 0)
  | PyFloat q => negb (Qeq_bool q 0)
  | PyStr s => negb (String.eqb s "")
  end.

(** The numeric value of a number-like object ([bool] is an [int]). *)
Definition as_number (v : pyval) : option Q :=
  match v with
  | PyBool b => Some (inject_Z (if b then 1 else 0))
  | PyInt n => Some (inject_Z n)
  | PyFloat q => Some q
  | _ => None
  end.

(** [a == b] *)
Definition py_eq (a b : pyval) : bool :=
  match as_number a, as_number b with
  | Some x, Some y => Qeq_bool x y
  | _, _ =>
      match a, b with
      | PyNone, PyNone => true
      | PyStr s, PyStr t => String.eqb s t
      | _, _ => false
      end
  end.

(** A flat key-value record, a Python [dict] with string keys. *)
Abbreviation record := (gmap string pyval).

(** [d.pop(key, None)]: the value (or [None]) and the dict without the key. *)
Definition pop (key : string) (d : record) : pyval * record :=
  (default PyNone (d !! key), delete key d).

(** ** The geometric tree below the station

    Modelled from the spec: the classes [SuperLayer], [Layer] and the drift
    cell live in modules that are not part of the sources at hand. Each node
    has a [number] and owns its children in enumeration order; lookup by
    number is a linear search that yields [None] when the number is absent.

    A cell object has one namespace. [own] lists the names in it that the
    cell class and its constructor define themselves (the
    properties of the frame entity, such as [number], and the attributes
    behind them, such as [_number]); [attrs] holds every other attribute,
    which is where the caller's values go. *)

Module Cell.
Record t : Type :=
  Make { number : Z; attrs : gmap string pyval; own : list string }.

(** [setattr(cell, key, value)]. A name the cell does not define itself
    becomes a new or overwritten attribute. What an assignment to one of the
    cell's own names does (renumber the cell, move it, raise) is decided by
    the cell class, which is not part of the sources at hand. *)
Definition setattr (c : t) (key : string) (value : pyval) : result t :=
  if existsb (String.eqb key) (own c)
  then Undetermined key
  else Ok {| number := number c; attrs := <[key := value]> (attrs c);
             own := own c |}.
End Cell.

Module Layer.
Record t : Type := Make { number : Z; cells : list Cell.t }.

Definition cell (ly : t) (cell_number : pyval) : option Cell.t :=
  find (fun c => py_eq (PyInt (Cell.number c)) cell_number) (cells ly).
End Layer.

Module SuperLayer.
Record t : Type := Make { number : Z; layers : list Layer.t }.

Definition layer (sl : t) (layer_number : pyval) : option Layer.t :=
  find (fun ly => py_eq (PyInt (Layer.number ly)) layer_number) (layers sl).
End SuperLayer.

(** In-place mutation of the first element that a linear search finds. *)
Fixpoint update_first {A} (p : A -> bool) (f : A -> A) (l : list A) : list A :=
  match l with
  | [] => []
  | x :: l' => if p x then f x :: l' else x :: update_first p f l'
  end.

(** A reference to the cell reached by [super_layer(sl).layer(l).cell(w)]. *)
Record CellRef : Type := { ref_sl : pyval; ref_l : pyval; ref_w : pyval }.

(** The cell object behind a reference. *)
Definition referenced (r : CellRef) (sls : list SuperLayer.t) : option Cell.t :=
  match find (fun s => py_eq (PyInt (SuperLayer.number s)) (ref_sl r)) sls with
  | Some s =>
      match SuperLayer.layer s (ref_l r) with
      | Some ly => Layer.cell ly (ref_w r)
      | None => None
      end
  | None => None
  end.

(** The tree after the referenced cell object has been changed by [f]. *)
Definition update_cell (r : CellRef) (f : Cell.t -> Cell.t)
    (sls : list SuperLayer.t) : list SuperLayer.t :=
  update_first (fun s => py_eq (PyInt (SuperLayer.number s)) (ref_sl r))
    (fun s => SuperLayer.Make (SuperLayer.number s)
       (update_first (fun ly => py_eq (PyInt (Layer.number ly)) (ref_l r))
          (fun ly => Layer.Make (Layer.number ly)
             (update_first (fun c => py_eq (PyInt (Cell.number c)) (ref_w r))
                f (Layer.cells ly)))
          (SuperLayer.layers s)))
    sls.

(** ** The Station object

    Modelled from the spec: the base class [DTFrame] is not part of the
    sources at hand; its setters store the identifier, the two positions
    (readable per coordinate), the normal direction and the bounds. *)

Record DTFrame : Type :=
  { _id : option Z;
    _x_local : option Q; _y_local : option Q; _z_local : option Q;
    _x_global : option Q; _y_global : option Q; _z_global : option Q;
    _direction : option vec3;
    _bounds : option vec3 }.

Definition DTFrame_new : DTFrame :=
  {| _id := None; _x_local := None; _y_local := None; _z_local := None;
     _x_global := None; _y_global := None; _z_global := None;
     _direction := None; _bounds := None |}.

(** An attribute that is [None] here has not been assigned yet. *)
Record Station : Type :=
  { _wheel : option Z;
    _sector : option Z;
    _number : option Z;
    frame : DTFrame;
    transformer : option TransformManager;
    _super_layers : option (list SuperLayer.t) }.

(** The object [__init__] receives: no attribute assigned. *)
Definition Station_new : Station :=
  {| _wheel := None; _sector := None; _number := None; frame := DTFrame_new;
     transformer := None; _super_layers := None |}.

Definition with_wheel (v : Z) (s : Station) : Station :=
  {| _wheel := Some v; _sector := _sector s; _number := _number s;
     frame := frame s; transformer := transformer s;
     _super_layers := _super_layers s |}.

Definition with_sector (v : Z) (s : Station) : Station :=
  {| _wheel := _wheel s; _sector := Some v; _number := _number s;
     frame := frame s; transformer := transformer s;
     _super_layers := _super_layers s |}.

Definition with_number (v : Z) (s : Station) : Station :=
  {| _wheel := _wheel s; _sector := _sector s; _number := Some v;
     frame := frame s; transformer := transformer s;
     _super_layers := _super_layers s |}.

Definition with_frame (f : DTFrame) (s : Station) : Station :=
  {| _wheel := _wheel s; _sector := _sector s; _number := _number s;
     frame := f; transformer := transformer s;
     _super_layers := _super_layers s |}.

Definition with_transformer (tm : TransformManager) (s : Station) : Station :=
  {| _wheel := _wheel s; _sector := _sector s; _number := _number s;
     frame := frame s; transformer := Some tm;
     _super_layers := _super_layers s |}.

Definition with_super_layers (sls : list SuperLayer.t) (s : Station) : Station :=
  {| _wheel := _wheel s; _sector := _sector s; _number := _number s;
     frame := frame s; transformer := transformer s;
     _super_layers := Some sls |}.

Definition frame_with_id (v : Z) (f : DTFrame) : DTFrame :=
  {| _id := Some v; _x_local := _x_local f; _y_local := _y_local f;
     _z_local := _z_local f; _x_global := _x_global f;
     _y_global := _y_global f; _z_global := _z_global f;
     _direction := _direction f; _bounds := _bounds f |}.

Definition frame_with_local_center (v : vec3) (f : DTFrame) : DTFrame :=
  {| _id := _id f; _x_local := Some (vx v); _y_local := Some (vy v);
     _z_local := Some (vz v); _x_global := _x_global f;
     _y_global := _y_global f; _z_global := _z_global f;
     _direction := _direction f; _bounds := _bounds f |}.

Definition frame_with_global_center (v : vec3) (f : DTFrame) : DTFrame :=
  {| _id := _id f; _x_local := _x_local f; _y_local := _y_local f;
     _z_local := _z_local f; _x_global := Some (vx v);
     _y_global := Some (vy v); _z_global := Some (vz v);
     _direction := _direction f; _bounds := _bounds f |}.

Definition frame_with_direction (v : vec3) (f : DTFrame) : DTFrame :=
  {| _id := _id f; _x_local := _x_local f; _y_local := _y_local f;
     _z_local := _z_local f; _x_global := _x_global f;
     _y_global := _y_global f; _z_global := _z_global f;
     _direction := Some v; _bounds := _bounds f |}.

Definition frame_with_bounds (v : vec3) (f : DTFrame) : DTFrame :=
  {| _id := _id f; _x_local := _x_local f; _y_local := _y_local f;
     _z_local := _z_local f; _x_global := _x_global f;
     _y_global := _y_global f; _z_global := _z_global f;
     _direction := _direction f; _bounds := Some v |}.

(** ** The world a method runs in *)

Inductive warning : Type :=
  | SuperLayerDoesNotExist (sl : pyval) (station_name : string).

(** What a run leaves behind besides the object itself: the queries put to
    the geometry source, the calls that register a transform (with the
    arguments as passed), the nodes of the tree built, the warnings issued. *)
Inductive event : Type :=
  | GeometryGet (attribute : string) (key : list Z)
  | TransformAdd (src tgt : string) (rotation : mat3) (translation : option vec3)
  | SuperLayerBuilt (rawId : Z)
  | Warn (w : warning).

Record World : Type := { self : Station; trace : list event }.

Definition M (A : Type) : Type := World -> result A * World.

#[global] Instance M_ret : MRet M := fun A a w => (Ok a, w).

#[global] Instance M_bind : MBind M := fun A B f m w =>
  match m w with
  | (Ok a, w') => f a w'
  | (Raise e, w') => (Raise e, w')
  | (Undetermined u, w') => (Undetermined u, w')
  end.

Definition raise {A} (e : exn) : M A := fun w => (Raise e, w).

Definition lift {A} (r : result A) : M A := fun w => (r, w).

Definition modify (f : Station -> Station) : M unit :=
  fun w => (Ok tt, {| self := f (self w); trace := trace w |}).

Definition emit (e : event) : M unit :=
  fun w => (Ok tt, {| self := self w; trace := trace w ++ [e] |}).

(** Reading an attribute that was never assigned is an [AttributeError]. *)
Definition attr {A} (name : string) (get : Station -> option A) : M A :=
  fun w => match get (self w) with
           | Some a => (Ok a, w)
           | None => (Raise (AttributeError name), w)
           end.

Fixpoint for_each {A} (body : A -> M unit) (l : list A) : M unit :=
  match l with
  | [] => mret tt
  | x :: l' => body x ;; for_each body l'
  end.

(** ** The geometry source and the constructors of the child classes

    [DTGEOMETRY] and the [SuperLayer] constructor are defined in modules that
    are not part of the sources at hand: they are taken as parameters. *)

Record Geometry : Type :=
  { geo_rawId : Z -> Z -> Z -> result Z;
    geo_LocalPosition : Z -> result vec3;
    geo_GlobalPosition : Z -> result vec3;
    geo_NormalVector : Z -> result vec3;
    geo_Bounds : Z -> result vec3;
    geo_SuperLayers : Z -> result (list Z);
    SuperLayer_init : Z -> Station -> result SuperLayer.t }.

(** One [DTGEOMETRY.get(...)] call. *)
Definition DTGEOMETRY_get {A} (attribute : string) (key : list Z)
    (answer : result A) : M A :=
  emit (GeometryGet attribute key) ;; lift answer.

(** ** Station: setters *)

Definition wheel_setter (value : Z) : M unit :=
  if (value <? -2) || (value >? 2)
  then raise (ValueError "Wheel value must be between -2 and 2")
  else modify (with_wheel value).

Definition sector_setter (value : Z) : M unit :=
  if (value <? 1) || (value >? 14)
  then raise (ValueError "Sector value must be between 1 and 14")
  else modify (with_sector value).

Definition number_setter (value : Z) : M unit :=
  if (value <? 1) || (value >? 4)
  then raise (ValueError "Station value must be between 1 and 4")
  else modify (with_number value).

(** ** Station: getters *)

Definition name : M string :=
  wheel ← attr "_wheel" _wheel ;
  sector ← attr "_sector" _sector ;
  number ← attr "_number" _number ;
  mret ("Wheel " +:+ pretty wheel +:+ ", Sector " +:+ pretty sector
        +:+ ", Station " +:+ pretty number).

(** [next((sl for sl in self._super_layers if sl.number == n), None)] *)
Definition super_layer (super_layer_number : pyval) : M (option SuperLayer.t) :=
  super_layers ← attr "_super_layers" _super_layers ;
  mret (find (fun sl => py_eq (PyInt (SuperLayer.number sl)) super_layer_number)
             super_layers).

(** ** Station: the transformer *)

Definition face_orientation (wheel sector : Z) : Z :=
  if wheel <? 0 then -1
  else if wheel >? 0 then 1
  else if existsb (Z.eqb sector) [1; 4; 5; 8; 9; 12; 13] then -1
  else 1.

(** [self.transformer.add(...)]: the manager object is changed in place. *)
Definition transformer_add (src tgt : string) (rotation : mat3)
    (translation : option vec3) : M unit :=
  tm ← attr "transformer" transformer ;
  emit (TransformAdd src tgt rotation translation) ;;
  tm' ← lift (TransformManager_add tm src tgt rotation translation) ;
  modify (with_transformer tm').

(** [_wheel] and [_sector] are both read up front here (the source reads
    [_sector] only for wheel 0); the constructor has assigned both by then. *)
Definition _setup_tranformer : M unit :=
  modify (with_transformer (TransformManager_init "Station")) ;;
  wheel ← attr "_wheel" _wheel ;
  sector ← attr "_sector" _sector ;
  let face_orientation := face_orientation wheel sector in
  CMSezSt ← attr "_direction" (fun s => _direction (frame s)) ;
  let CMSeySt := vmul (array 0 0 1) face_orientation in
  let CMSexSt := perpendicular_to_vectors CMSeySt CMSezSt in
  let _RCMSSt := T (array2d CMSexSt CMSeySt CMSezSt) in
  x_global ← attr "_x_global" (fun s => _x_global (frame s)) ;
  y_global ← attr "_y_global" (fun s => _y_global (frame s)) ;
  z_global ← attr "_z_global" (fun s => _z_global (frame s)) ;
  let _TCMSSt := V3 x_global y_global z_global in
  transformer_add "Station" "CMS" _RCMSSt (Some _TCMSSt) ;;
  let StNvezSt := array 0 0 (-1) in
  let StNvPhieySt := vmul (array 0 (-1) 0) face_orientation in
  let StNvPhiexSt := perpendicular_to_vectors StNvPhieySt StNvezSt in
  let _RStNvPhiSt := T (array2d StNvPhiexSt StNvPhieySt StNvezSt) in
  transformer_add "Station" "StationNvPhi" _RStNvPhiSt None ;;
  let StNvEtaexSt := vmul (array (-1) 0 0) face_orientation in
  let StNvEtaeySt := perpendicular_to_vectors StNvezSt StNvEtaexSt in
  let _RStNvPhiSt := T (array2d StNvEtaexSt StNvEtaeySt StNvezSt) in
  transformer_add "Station" "StationNvEta" _RStNvPhiSt None.

(** ** Station: building the tree *)

Definition _add_super_layer (super_layer : SuperLayer.t) : M unit :=
  super_layers ← attr "_super_layers" _super_layers ;
  modify (with_super_layers (super_layers ++ [super_layer])).

Definition _build_station (G : Geometry) : M unit :=
  id ← attr "_id" (fun s => _id (frame s)) ;
  SLs ← DTGEOMETRY_get "SuperLayer" [id] (geo_SuperLayers G id) ;
  for_each (fun rawId : Z =>
      emit (SuperLayerBuilt rawId) ;;
      sl ← (fun w => lift (SuperLayer_init G rawId (self w)) w) ;
      _add_super_layer sl) SLs.

(** ** Station: ingestion of the cell attributes *)

(** The accepted shapes of [dt_info]; a [DataFrame] stands for its rows as
    [to_dict(orient="records")] returns them, each row a dict of its own.
    [InfoList l] is a list of dicts in which every dict is listed once.
    [InfoListShared dicts entries] is a list in which a dict may be listed
    more than once: its i-th element is the dict [dicts !! (entries !! i)],
    one object however often it is listed, as [deepcopy] keeps it; an entry
    that names no dict stands for an element that is not a dict. *)
Inductive DtInfo : Type :=
  | InfoDict (d : record)
  | InfoDataFrame (rows : list record)
  | InfoList (l : list record)
  | InfoListShared (dicts : list record) (entries : list nat)
  | InfoOther.

(** [setattr(cell, key, value)] through the reference the lookups returned:
    on [None] it is an [AttributeError]; on a cell, the cell object is
    changed where it sits in the tree. (A reference made by a lookup always
    leads to its cell.) *)
Definition setattr (cell : option CellRef) (key : string) (value : pyval) : M unit :=
  match cell with
  | None => raise (AttributeError key)
  | Some r =>
      super_layers ← attr "_super_layers" _super_layers ;
      match referenced r super_layers with
      | Some c =>
          c' ← lift (Cell.setattr c key value) ;
          modify (with_super_layers (update_cell r (fun _ => c') super_layers))
      | None => lift (Undetermined "cell reference")
      end
  end.

(** The loop body once the three identifiers have passed the check: the
    super-layer lookup with its warning, the descent to the cell, and the
    assignment of the remaining items. *)
Definition locate_and_assign (sl l w : pyval) (info_item : record) : M unit :=
  found ← super_layer sl ;
  match found with
  | None =>
      station_name ← name ;
      emit (Warn (SuperLayerDoesNotExist sl station_name))
  | Some _ =>
      found ← super_layer sl ;
      ly ← match found with
           | Some s => mret (SuperLayer.layer s l)
           | None => raise (AttributeError "layer")
           end ;
      cell ← match ly with
             | Some ly =>
                 mret (match Layer.cell ly w with
                       | Some _ => Some {| ref_sl := sl; ref_l := l; ref_w := w |}
                       | None => None
                       end)
             | None => raise (AttributeError "cell")
             end ;
      for_each (fun kv => setattr cell (fst kv) (snd kv)) (map_to_list info_item)
  end.

(** The body of the [for info_item in info] loop. *)
Definition set_cell_attrs_item (info_item : record) : M unit :=
  let '(sl, info_item) := pop "sl" info_item in
  let '(l, info_item) := pop "l" info_item in
  let '(w, info_item) := pop "w" info_item in
  if negb (truthy sl && truthy l && truthy w)
  then raise (ValueError
    "The drift cell information must contain the super layer, layer, and wire identifiers.")
  else locate_and_assign sl l w info_item.

(** The loop over a list in which a dict may be listed more than once: the
    three [pop]s of an iteration change the dict in place, so a later entry
    that lists the same dict finds it without them. On an element that is
    not a dict the call of its [pop] fails. *)
Fixpoint for_each_shared (dicts : list record) (entries : list nat) : M unit :=
  match entries with
  | [] => mret tt
  | i :: entries' =>
      match dicts !! i with
      | Some info_item =>
          set_cell_attrs_item info_item ;;
          for_each_shared
            (<[i := snd (pop "w" (snd (pop "l" (snd (pop "sl" info_item)))))]> dicts)
            entries'
      | None => raise (AttributeError "pop")
      end
  end.

Definition set_cell_attrs (dt_info : DtInfo) : M unit :=
  match dt_info with
  | InfoDict d => for_each set_cell_attrs_item [d]
  | InfoDataFrame rows => for_each set_cell_attrs_item rows
  | InfoList l => for_each set_cell_attrs_item l
  | InfoListShared dicts entries => for_each_shared dicts entries
  | InfoOther =>
      raise (TypeError
        "The drift time information must be a dictionary, a list of dictionaries, or a pandas DataFrame.")
  end.

(** ** Station: the constructor *)

Definition __init__ (G : Geometry) (wheel sector station : Z)
    (dt_info : option DtInfo) : M unit :=
  wheel_setter wheel ;;
  sector_setter sector ;;
  number_setter station ;;
  id ← DTGEOMETRY_get "rawId" [wheel; sector; station]
         (geo_rawId G wheel sector station) ;
  modify (fun s => with_frame (frame_with_id id (frame s)) s) ;;
  id ← attr "_id" (fun s => _id (frame s)) ;
  local_center ← DTGEOMETRY_get "LocalPosition" [id] (geo_LocalPosition G id) ;
  modify (fun s => with_frame (frame_with_local_center local_center (frame s)) s) ;;
  id ← attr "_id" (fun s => _id (frame s)) ;
  global_center ← DTGEOMETRY_get "GlobalPosition" [id] (geo_GlobalPosition G id) ;
  modify (fun s => with_frame (frame_with_global_center global_center (frame s)) s) ;;
  id ← attr "_id" (fun s => _id (frame s)) ;
  direction ← DTGEOMETRY_get "NormalVector" [id] (geo_NormalVector G id) ;
  modify (fun s => with_frame (frame_with_direction direction (frame s)) s) ;;
  id ← attr "_id" (fun s => _id (frame s)) ;
  bounds ← DTGEOMETRY_get "Bounds" [id] (geo_Bounds G id) ;
  modify (fun s => with_frame (frame_with_bounds bounds (frame s)) s) ;;
  _setup_tranformer ;;
  modify (with_super_layers []) ;;
  _build_station G ;;
  match dt_info with
  | Some info => set_cell_attrs info
  | None => mret tt
  end.

(** [Station(wheel, sector, station, dt_info)]: [__init__] runs on a fresh
    object; the caller receives the object only when [__init__] returns. *)
Definition Station_call (G : Geometry) (wheel sector station : Z)
    (dt_info : option DtInfo) : result Station * World :=
  match __init__ G wheel sector station dt_info
          {| self := Station_new; trace := [] |} with
  | (Ok _, w) => (Ok (self w), w)
  | (Raise e, w) => (Raise e, w)
  | (Undetermined u, w) => (Undetermined u, w)
  end.

(** ** A small chamber to run the definitions on *)

(** The names the cells of the examples define themselves. *)
Definition demo_own : list string :=
  ["number"; "_number"; "id"; "_id"; "parent"; "_parent"].

Definition demo_cell (n : Z) : Cell.t := Cell.Make n ∅ demo_own.

Definition demo_layer (n : Z) : Layer.t :=
  Layer.Make n [demo_cell 1; demo_cell 2; demo_cell 3].

Definition demo_super_layer (n : Z) : SuperLayer.t :=
  SuperLayer.Make n [demo_layer 1; demo_layer 2].

Definition demo_geometry (direction : vec3) : Geometry :=
  {| geo_rawId := fun wh sec st => Ok (100 * (wh + 3) + 10 * sec + st);
     geo_LocalPosition := fun _ => Ok (V3 0 0 0);
     geo_GlobalPosition := fun _ => Ok (V3 (431 # 1) (39 # 10) (-533 # 1));
     geo_NormalVector := fun _ => Ok direction;
     geo_Bounds := fun _ => Ok (V3 (218 # 1) (29 # 1) (251 # 1));
     geo_SuperLayers := fun _ => Ok [1; 3];
     SuperLayer_init := fun rawId _ => Ok (demo_super_layer rawId) |}.

(** ** Vocabulary of the statements *)

(** The manager [_setup_tranformer] leaves in [self.transformer]. *)
Definition registered (s : Z) (d g : vec3) : TransformManager :=
  {| initial_frame := "Station";
     transforms :=
       <[("Station", "StationNvEta") :=
           {| rotation_matrix :=
                T (array2d (vmul (array (-1) 0 0) s)
                     (cross (array 0 0 (-1)) (vmul (array (-1) 0 0) s))
                     (array 0 0 (-1)));
              translation_vector := vzero |}]>
       (<[("Station", "StationNvPhi") :=
           {| rotation_matrix :=
                T (array2d (cross (vmul (array 0 (-1) 0) s) (array 0 0 (-1)))
                     (vmul (array 0 (-1) 0) s) (array 0 0 (-1)));
              translation_vector := vzero |}]>
       (<[("Station", "CMS") :=
           {| rotation_matrix :=
                T (array2d (cross (vmul (array 0 0 1) s) d)
                     (vmul (array 0 0 1) s) d);
              translation_vector := g |}]> ∅)) |}.

(** The three [add] calls of [_setup_tranformer], as issued. *)
Definition add_calls (s : Z) (d g : vec3) : list event :=
  [ TransformAdd "Station" "CMS"
      (T (array2d (cross (vmul (array 0 0 1) s) d) (vmul (array 0 0 1) s) d))
      (Some g);
    TransformAdd "Station" "StationNvPhi"
      (T (array2d (cross (vmul (array 0 (-1) 0) s) (array 0 0 (-1)))
            (vmul (array 0 (-1) 0) s) (array 0 0 (-1))))
      None;
    TransformAdd "Station" "StationNvEta"
      (T (array2d (vmul (array (-1) 0 0) s)
            (cross (array 0 0 (-1)) (vmul (array (-1) 0 0) s))
            (array 0 0 (-1))))
      None ].

Definition CMS_key : string * string := ("Station", "CMS").
Definition NvPhi_key : string * string := ("Station", "StationNvPhi").
Definition NvEta_key : string * string := ("Station", "StationNvEta").

Definition keeps (w w' : World) : Prop :=
  _wheel (self w') = _wheel (self w) /\
  _sector (self w') = _sector (self w) /\
  _number (self w') = _number (self w) /\
  frame (self w') = frame (self w) /\
  transformer (self w') = transformer (self w) /\
  (is_Some (_super_layers (self w)) -> is_Some (_super_layers (self w'))) /\
  exists t : list event, trace w' = trace w ++ t.

Definition preserving {A} (m : M A) : Prop :=
  forall w r w', m w = (r, w') -> keeps w w'.

(** The station of the examples: wheel 0, sector 4, an MB2 chamber whose
    measured normal is the x axis. *)
Definition demo_world : World :=
  snd (Station_call (demo_geometry (V3 1 0 0)) 0 4 2 None).

Definition demo_station : Station := self demo_world.

(** The identifier a record carries under [key], [None] when it has none:
    what [info_item.pop(key, None)] returns. *)
Definition identifier (r : record) (key : string) : pyval :=
  default PyNone (r !! key).

(** The items left in a record once the three identifiers are popped. *)
Definition attributes (r : record) : record :=
  delete "w" (delete "l" (delete "sl" r)).

(** The check [all([sl, l, w])] on a record. *)
Definition well_identified (r : record) : bool :=
  truthy (identifier r "sl") && truthy (identifier r "l")
  && truthy (identifier r "w").

(** The records an accepted [dt_info] is normalised to, when none of its
    dicts is listed more than once. *)
Definition records_of (info : DtInfo) : option (list record) :=
  match info with
  | InfoDict d => Some [d]
  | InfoDataFrame rows => Some rows
  | InfoList l => Some l
  | InfoListShared _ _ => None
  | InfoOther => None
  end.

(** All the attributes of the station are assigned. *)
Definition constructed (s : Station) : Prop :=
  is_Some (_wheel s) /\ is_Some (_sector s) /\ is_Some (_number s) /\
  is_Some (transformer s) /\ is_Some (_super_layers s).

(** The value of attribute [key] on the cell that the descent
    [super_layer(sl).layer(l).cell(w)] reaches, if there is one. *)
Definition tree_cell_attr (sls : list SuperLayer.t) (sl l w : Z) (key : string)
    : option pyval :=
  s ← find (fun x => py_eq (PyInt (SuperLayer.number x)) (PyInt sl)) sls ;
  ly ← SuperLayer.layer s (PyInt l) ;
  c ← Layer.cell ly (PyInt w) ;
  Cell.attrs c !! key.

Definition cell_attr (st : Station) (sl l w : Z) (key : string) : option pyval :=
  sls ← _super_layers st ; tree_cell_attr sls sl l w key.

(** Records of the examples. *)
Definition rec_time : record :=
  <["sl" := PyInt 1]> (<["l" := PyInt 1]> (<["w" := PyInt 2]>
    (<["time" := PyInt 300]> ∅))).

Definition rec_no_wire : record :=
  <["sl" := PyInt 1]> (<["l" := PyInt 2]> (<["time" := PyInt 10]> ∅)).

Definition rec_wire_zero : record :=
  <["sl" := PyInt 1]> (<["l" := PyInt 2]> (<["w" := PyInt 0]>
    (<["time" := PyInt 10]> ∅))).

Definition rec_sl99 : record :=
  <["sl" := PyInt 99]> (<["l" := PyInt 1]> (<["w" := PyInt 1]>
    (<["time" := PyInt 10]> ∅))).



Definition rec_layer9 : record :=
  <["sl" := PyInt 1]> (<["l" := PyInt 9]> (<["w" := PyInt 1]> ∅)).

(** ** Vocabulary of the further properties *)

(** The tree reduced to its numbers: the super layers in order, each with
    its layers in order, each with the wire numbers of its cells. *)
Definition skeleton (sls : list SuperLayer.t) : list (Z * list (Z * list Z)) :=
  map (fun s =>
         (SuperLayer.number s,
          map (fun ly => (Layer.number ly, map Cell.number (Layer.cells ly)))
              (SuperLayer.layers s)))
      sls.

(** A cell after [value] has been stored under a name that is not one of
    its own. *)
Definition stored (key : string) (value : pyval) (c : Cell.t) : Cell.t :=
  Cell.Make (Cell.number c) (<[key := value]> (Cell.attrs c)) (Cell.own c).




(** A run from [w] to [w'] has kept the numbering of the tree: the super
    layers, layers and cells are the same in number, order and numbers. *)
Definition same_skeleton (w w' : World) : Prop :=
  forall sls, _super_layers (self w) = Some sls ->
    exists sls', _super_layers (self w') = Some sls' /\ skeleton sls' = skeleton sls.

(** Every run of [m], normal or exceptional, relates its two ends by [R]. *)
Definition respects {A} (R : World -> World -> Prop) (m : M A) : Prop :=
  forall w r w', m w = (r, w') -> R w w'.

(** A geometry source that knows the chamber but not its normal vector. *)
Definition no_normal_geometry : Geometry :=
  {| geo_rawId := geo_rawId (demo_geometry (V3 1 0 0));
     geo_LocalPosition := geo_LocalPosition (demo_geometry (V3 1 0 0));
     geo_GlobalPosition := geo_GlobalPosition (demo_geometry (V3 1 0 0));
     geo_NormalVector := fun _ => Raise (GeometryError "NormalVector");
     geo_Bounds := geo_Bounds (demo_geometry (V3 1 0 0));
     geo_SuperLayers := geo_SuperLayers (demo_geometry (V3 1 0 0));
     SuperLayer_init := SuperLayer_init (demo_geometry (V3 1 0 0)) |}.

(** The determinant of a matrix, as the triple product of its columns. *)
Definition det (m : mat3) : Q := triple (col0 m) (col1 m) (col2 m).

(** The diagonal matrix of three integers. *)
Definition diag (a b c : Z) : mat3 :=
  Rows (array a 0 0) (array 0 b 0) (array 0 0 c).

(** The formatted name of the station with the given numbers. *)
Definition station_name (wheel sector number : Z) : string :=
  "Wheel " +:+ pretty wheel +:+ ", Sector " +:+ pretty sector
  +:+ ", Station " +:+ pretty number.

(** The configurations the setters accept. *)
Definition valid_configurations : list (Z * (Z * Z)) :=
  list_prod [-2; -1; 0; 1; 2]
    (list_prod [1; 2; 3; 4; 5; 6; 7; 8; 9; 10; 11; 12; 13; 14] [1; 2; 3; 4]).

Definition configuration_eqb (c1 c2 : Z * (Z * Z)) : bool :=
  (fst c1 =? fst c2) && (fst (snd c1) =? fst (snd c2))
  && (snd (snd c1) =? snd (snd c2)).

Definition name_of_configuration (c : Z * (Z * Z)) : string :=
  station_name (fst c) (fst (snd c)) (snd (snd c)).

(** No two accepted configurations are formatted to the same name. *)
Definition names_distinct : bool :=
  forallb (fun c1 =>
     forallb (fun c2 =>
        implb (String.eqb (name_of_configuration c1) (name_of_configuration c2))
              (configuration_eqb c1 c2))
       valid_configurations)
    valid_configurations.


(** A record without a wire number for a super layer the chamber lacks. *)
Definition rec_sl99_no_wire : record :=
  <["sl" := PyInt 99]> (<["l" := PyInt 1]> (<["time" := PyInt 10]> ∅)).

Definition rec_sl77 : record :=
  <["sl" := PyInt 77]> (<["l" := PyInt 2]> (<["w" := PyInt 3]> ∅)).

(** The y axis of the registered Station->CMS rotation, if there is one. *)
Definition cms_y_axis (s : Station) : option vec3 :=
  tm ← transformer s ;
  tr ← transforms tm !! CMS_key ;
  Some (col1 (rotation_matrix tr)).

(** * Properties *)

(** ** Running the monad *)

Lemma bind_run {A B} (m : M A) (f : A -> M B) (w : World) :
  (m ≫= f) w = match m w with
               | (Ok a, w') => f a w'
               | (Raise e, w') => (Raise e, w')
               | (Undetermined u, w') => (Undetermined u, w')
               end.
Proof. reflexivity. Qed.

Lemma bind_ok {A B} (m : M A) (f : A -> M B) (w w1 : World) (a : A) :
  m w = (Ok a, w1) -> (m ≫= f) w = f a w1.
Proof. intros H. rewrite bind_run, H. reflexivity. Qed.

Lemma bind_raise {A B} (m : M A) (f : A -> M B) (w w1 : World) (e : exn) :
  m w = (Raise e, w1) -> (m ≫= f) w = (Raise e, w1).
Proof. intros H. rewrite bind_run, H. reflexivity. Qed.

Lemma bind_ok_inv {A B} (m : M A) (f : A -> M B) (w w2 : World) (b : B) :
  (m ≫= f) w = (Ok b, w2) ->
  exists a w1, m w = (Ok a, w1) /\ f a w1 = (Ok b, w2).
Proof.
  rewrite bind_run. destruct (m w) as [[a|e|u] w1]; intros H.
  - exists a, w1. split; [reflexivity | exact H].
  - discriminate H.
  - discriminate H.
Qed.

Lemma attr_ok {A} (nm : string) (get : Station -> option A) (w : World) (a : A) :
  get (self w) = Some a -> attr nm get w = (Ok a, w).
Proof. intros H. unfold attr. rewrite H. reflexivity. Qed.

Lemma attr_ok_inv {A} (nm : string) (get : Station -> option A) (w w1 : World) (a : A) :
  attr nm get w = (Ok a, w1) -> get (self w) = Some a /\ w1 = w.
Proof.
  unfold attr. destruct (get (self w)); intros H; inversion H; subst; auto.
Qed.

Lemma for_each_app {A} (body : A -> M unit) (l1 l2 : list A) (w w1 : World) :
  for_each body l1 w = (Ok tt, w1) ->
  for_each body (l1 ++ l2) w = for_each body l2 w1.
Proof.
  revert w. induction l1 as [|x l1 IH]; intros w H; simpl in *.
  - inversion H. reflexivity.
  - apply bind_ok_inv in H as ([] & w0 & Hx & Hrest).
    rewrite (bind_ok _ _ _ _ _ Hx). apply IH, Hrest.
Qed.

(** ** The transformer set-up *)

Lemma face_orientation_cases (wheel sector : Z) :
  face_orientation wheel sector = -1 \/ face_orientation wheel sector = 1.
Proof.
  unfold face_orientation.
  destruct (wheel <? 0); [auto|]. destruct (wheel >? 0); [auto|].
  destruct (existsb _ _); auto.
Qed.

Lemma transformer_add_fresh (w : World) (tm : TransformManager)
    (src tgt : string) (R : mat3) (t : option vec3) :
  transformer (self w) = Some tm ->
  transforms tm !! (src, tgt) = None ->
  transformer_add src tgt R t w =
    (Ok tt,
     {| self := with_transformer
                  {| initial_frame := initial_frame tm;
                     transforms :=
                       <[(src, tgt) := {| rotation_matrix := R;
                                          translation_vector := default vzero t |}]>
                         (transforms tm) |} (self w);
        trace := trace w ++ [TransformAdd src tgt R t] |}).
Proof.
  intros Htm Hfresh. unfold transformer_add.
  rewrite (bind_ok _ _ _ _ _ (attr_ok _ _ _ _ Htm)).
  rewrite bind_run. simpl. unfold lift, TransformManager_add.
  rewrite bind_run. rewrite Hfresh. reflexivity.
Qed.

Lemma _setup_tranformer_run (w : World) (wheel sector : Z) (d : vec3) (x y z : Q) :
  _wheel (self w) = Some wheel ->
  _sector (self w) = Some sector ->
  _direction (frame (self w)) = Some d ->
  _x_global (frame (self w)) = Some x ->
  _y_global (frame (self w)) = Some y ->
  _z_global (frame (self w)) = Some z ->
  _setup_tranformer w =
    (Ok tt,
     {| self := with_transformer
                  (registered (face_orientation wheel sector) d (V3 x y z)) (self w);
        trace := trace w
                 ++ add_calls (face_orientation wheel sector) d (V3 x y z) |}).
Proof.
  intros Hw Hs Hd Hx Hy Hz. unfold _setup_tranformer.
  rewrite bind_run. cbn [modify self trace].
  erewrite bind_ok by (apply attr_ok; exact Hw).
  erewrite bind_ok by (apply attr_ok; exact Hs).
  erewrite bind_ok by (apply attr_ok; exact Hd).
  erewrite bind_ok by (apply attr_ok; exact Hx).
  erewrite bind_ok by (apply attr_ok; exact Hy).
  erewrite bind_ok by (apply attr_ok; exact Hz).
  erewrite bind_ok by (apply transformer_add_fresh; [reflexivity | apply lookup_empty]).
  erewrite bind_ok by
    (apply transformer_add_fresh;
     [reflexivity | cbn [transforms]; rewrite lookup_insert_ne by discriminate;
                    apply lookup_empty]).
  erewrite transformer_add_fresh;
    [ | reflexivity
      | cbn [transforms]; rewrite !lookup_insert_ne by discriminate;
        apply lookup_empty ].
  unfold registered, add_calls, perpendicular_to_vectors, TransformManager_init.
  cbn [self trace with_transformer transformer initial_frame transforms default].
  rewrite <- !app_assoc. reflexivity.
Qed.

(** ** What the tree builder and the ingestion leave untouched *)

Lemma keeps_refl (w : World) : keeps w w.
Proof.
  unfold keeps. repeat split; auto. exists []. symmetry. apply app_nil_r.
Qed.

Lemma keeps_trans (w1 w2 w3 : World) : keeps w1 w2 -> keeps w2 w3 -> keeps w1 w3.
Proof.
  unfold keeps.
  intros (a1 & b1 & c1 & d1 & e1 & f1 & t1 & g1) (a2 & b2 & c2 & d2 & e2 & f2 & t2 & g2).
  repeat split; try congruence; auto.
  exists (t1 ++ t2). rewrite g2, g1. symmetry. apply app_assoc.
Qed.

Lemma preserving_ret {A} (a : A) : preserving (mret a).
Proof. intros w r w' H. inversion H. apply keeps_refl. Qed.

Lemma preserving_raise {A} (e : exn) : preserving (@raise A e).
Proof. intros w r w' H. inversion H. apply keeps_refl. Qed.

Lemma preserving_lift {A} (x : result A) : preserving (lift x).
Proof. intros w r w' H. inversion H. apply keeps_refl. Qed.

Lemma preserving_attr {A} (nm : string) (get : Station -> option A) :
  preserving (attr nm get).
Proof.
  intros w r w' H. unfold attr in H.
  destruct (get (self w)); inversion H; apply keeps_refl.
Qed.

Lemma preserving_emit (e : event) : preserving (emit e).
Proof.
  intros w r w' H. inversion H. unfold keeps. cbn. repeat split; auto. eauto.
Qed.

Lemma preserving_with_super_layers (sls : list SuperLayer.t) :
  preserving (modify (with_super_layers sls)).
Proof.
  intros w r w' H. inversion H. unfold keeps. cbn. repeat split; eauto.
  exists []. symmetry. apply app_nil_r.
Qed.

Lemma preserving_bind {A B} (m : M A) (f : A -> M B) :
  preserving m -> (forall a, preserving (f a)) -> preserving (m ≫= f).
Proof.
  intros Hm Hf w r w'. rewrite bind_run.
  destruct (m w) as [[a|e|u] w1] eqn:E; intros H.
  - eapply keeps_trans; [eapply Hm, E | eapply Hf, H].
  - inversion H; subst. eapply Hm, E.
  - inversion H; subst. eapply Hm, E.
Qed.

Lemma preserving_for_each {A} (body : A -> M unit) (l : list A) :
  (forall x, preserving (body x)) -> preserving (for_each body l).
Proof.
  intros Hb. induction l as [|x l IH]; simpl.
  - apply preserving_ret.
  - apply preserving_bind; auto.
Qed.

Create HintDb preserve.
#[local] Hint Resolve preserving_ret preserving_raise preserving_lift
  preserving_attr preserving_emit preserving_with_super_layers : preserve.

Ltac preserve :=
  repeat first
    [ apply preserving_bind; [| intros ?]
    | apply preserving_for_each; intros ?
    | solve [auto with preserve] ].

Lemma preserving_setattr (cell : option CellRef) (k : string) (v : pyval) :
  preserving (setattr cell k v).
Proof.
  unfold setattr. destruct cell as [r|]; [| auto with preserve].
  apply preserving_bind; [auto with preserve | intros sls].
  destruct (referenced r sls); preserve.
Qed.

Lemma preserving_super_layer (n : pyval) : preserving (super_layer n).
Proof. unfold super_layer. preserve. Qed.

Lemma preserving_locate_and_assign (sl l w : pyval) (r : record) :
  preserving (locate_and_assign sl l w r).
Proof.
  unfold locate_and_assign, name.
  apply preserving_bind; [apply preserving_super_layer | intros [s|]].
  - apply preserving_bind; [apply preserving_super_layer | intros found].
    apply preserving_bind; [destruct found; auto with preserve | intros ly].
    apply preserving_bind; [destruct ly; auto with preserve | intros cell].
    apply preserving_for_each. intros kv. apply preserving_setattr.
  - preserve.
Qed.

Lemma preserving_set_cell_attrs_item (r : record) : preserving (set_cell_attrs_item r).
Proof.
  unfold set_cell_attrs_item, pop.
  destruct (negb _); [auto with preserve | apply preserving_locate_and_assign].
Qed.

Lemma preserving_set_cell_attrs (info : DtInfo) : preserving (set_cell_attrs info).
Proof.
  unfold set_cell_attrs.
  destruct info as [d|rows|l|dicts entries|];
    try (apply preserving_for_each, preserving_set_cell_attrs_item);
    [| auto with preserve].
  revert dicts. induction entries as [|i entries IH]; intros dicts;
    cbn [for_each_shared]; [auto with preserve |].
  destruct (dicts !! i); [| auto with preserve].
  apply preserving_bind; [apply preserving_set_cell_attrs_item | intros _; apply IH].
Qed.

Lemma preserving__build_station (G : Geometry) : preserving (_build_station G).
Proof.
  unfold _build_station, DTGEOMETRY_get, _add_super_layer. preserve.
  intros w r w' H. unfold lift in H. inversion H. apply keeps_refl.
Qed.

Lemma DTGEOMETRY_get_ok_inv {A} (a : string) (k : list Z) (x : result A) w w1 v :
  DTGEOMETRY_get a k x w = (Ok v, w1) ->
  x = Ok v /\ w1 = {| self := self w; trace := trace w ++ [GeometryGet a k] |}.
Proof.
  unfold DTGEOMETRY_get, lift, emit. rewrite bind_run. destruct x; intros H; inversion H; auto.
Qed.

Ltac run_modify E :=
  rewrite bind_run in E;
  cbn [modify self trace with_frame with_wheel with_sector with_number frame
       frame_with_id frame_with_local_center frame_with_global_center
       frame_with_direction frame_with_bounds _wheel _sector _number
       transformer _super_layers _id _x_local _y_local _z_local _x_global
       _y_global _z_global _direction _bounds Station_new DTFrame_new app] in E.

Ltac read_attr E :=
  match type of E with
  | (attr ?nm ?get ≫= ?f) ?w = _ =>
      rewrite (bind_ok (attr nm get) f w w _ (attr_ok nm get w _ eq_refl)) in E
  end.

Lemma Station_call_ok (G : Geometry) (wheel sector station : Z)
    (info : option DtInfo) (st : Station) (w : World) :
  Station_call G wheel sector station info = (Ok st, w) ->
  st = self w /\
  -2 <= wheel <= 2 /\ 1 <= sector <= 14 /\ 1 <= station <= 4 /\
  exists id lc gc d b,
    geo_rawId G wheel sector station = Ok id /\
    geo_LocalPosition G id = Ok lc /\
    geo_GlobalPosition G id = Ok gc /\
    geo_NormalVector G id = Ok d /\
    geo_Bounds G id = Ok b /\
    _wheel st = Some wheel /\ _sector st = Some sector /\
    _number st = Some station /\
    _direction (frame st) = Some d /\
    _x_global (frame st) = Some (vx gc) /\
    _y_global (frame st) = Some (vy gc) /\
    _z_global (frame st) = Some (vz gc) /\
    transformer st =
      Some (registered (face_orientation wheel sector) d (V3 (vx gc) (vy gc) (vz gc))) /\
    is_Some (_super_layers st) /\
    exists t,
      trace w =
        [ GeometryGet "rawId" [wheel; sector; station];
          GeometryGet "LocalPosition" [id];
          GeometryGet "GlobalPosition" [id];
          GeometryGet "NormalVector" [id];
          GeometryGet "Bounds" [id] ]
        ++ add_calls (face_orientation wheel sector) d (V3 (vx gc) (vy gc) (vz gc))
        ++ t.
Proof.
  unfold Station_call.
  destruct (__init__ _ _ _ _ _ _) as [[[]|e|u] w'] eqn:E; intros H; inversion H; subst; clear H.
  split; [reflexivity|].
  unfold __init__ in E.
  apply bind_ok_inv in E as ([] & w1 & H1 & E).
  unfold wheel_setter in H1. destruct (_ || _) eqn:C1; [discriminate|].
  inversion H1; subst; clear H1.
  apply bind_ok_inv in E as ([] & w1 & H1 & E).
  unfold sector_setter in H1. destruct (_ || _) eqn:C2 in H1; [discriminate|].
  inversion H1; subst; clear H1.
  apply bind_ok_inv in E as ([] & w1 & H1 & E).
  unfold number_setter in H1. destruct (_ || _) eqn:C3 in H1; [discriminate|].
  inversion H1; subst; clear H1.
  split; [lia|]. split; [lia|]. split; [lia|].
  apply bind_ok_inv in E as (id & w1 & H1 & E).
  apply DTGEOMETRY_get_ok_inv in H1 as [G1 ->].
  run_modify E.
  read_attr E.
  apply bind_ok_inv in E as (lc & w1 & H1 & E).
  apply DTGEOMETRY_get_ok_inv in H1 as [G2 ->].
  run_modify E.
  read_attr E.
  apply bind_ok_inv in E as (gc & w1 & H1 & E).
  apply DTGEOMETRY_get_ok_inv in H1 as [G3 ->].
  run_modify E.
  read_attr E.
  apply bind_ok_inv in E as (d & w1 & H1 & E).
  apply DTGEOMETRY_get_ok_inv in H1 as [G4 ->].
  run_modify E.
  read_attr E.
  apply bind_ok_inv in E as (b & w1 & H1 & E).
  apply DTGEOMETRY_get_ok_inv in H1 as [G5 ->].
  run_modify E.
  match type of E with
  | (_ ≫= _) ?w0 = _ =>
      rewrite (bind_ok _ _ _ _ _
                 (_setup_tranformer_run w0 wheel sector d (vx gc) (vy gc) (vz gc)
                    eq_refl eq_refl eq_refl eq_refl eq_refl eq_refl)) in E
  end.
  run_modify E.
  assert (P : preserving
    (_build_station G ≫= λ _ : (),
       match info with Some info => set_cell_attrs info | None => mret () end)).
  { apply preserving_bind; [apply preserving__build_station | intros _].
    destruct info; [apply preserving_set_cell_attrs | auto with preserve]. }
  apply P in E. clear P.
  destruct E as (K1 & K2 & K3 & K4 & K5 & K6 & t & K7).
  exists id, lc, gc, d, b.
  rewrite K1, K2, K3, K4, K5, K7.
  repeat (split; [first [assumption | reflexivity] |]).
  split; [apply K6; cbn; eauto |].
  exists t. cbn. reflexivity.
Qed.

(** ** The registered transforms *)

Lemma registered_CMS (s : Z) (d g : vec3) :
  transforms (registered s d g) !! CMS_key =
    Some {| rotation_matrix :=
              T (array2d (cross (vmul (array 0 0 1) s) d) (vmul (array 0 0 1) s) d);
            translation_vector := g |}.
Proof.
  unfold registered, CMS_key. cbn [transforms].
  rewrite !lookup_insert_ne by discriminate. apply lookup_insert_eq.
Qed.

Lemma registered_NvPhi (s : Z) (d g : vec3) :
  transforms (registered s d g) !! NvPhi_key =
    Some {| rotation_matrix :=
              T (array2d (cross (vmul (array 0 (-1) 0) s) (array 0 0 (-1)))
                   (vmul (array 0 (-1) 0) s) (array 0 0 (-1)));
            translation_vector := vzero |}.
Proof.
  unfold registered, NvPhi_key. cbn [transforms].
  rewrite lookup_insert_ne by discriminate. apply lookup_insert_eq.
Qed.

Lemma registered_NvEta (s : Z) (d g : vec3) :
  transforms (registered s d g) !! NvEta_key =
    Some {| rotation_matrix :=
              T (array2d (vmul (array (-1) 0 0) s)
                   (cross (array 0 0 (-1)) (vmul (array (-1) 0 0) s))
                   (array 0 0 (-1)));
            translation_vector := vzero |}.
Proof. unfold registered, NvEta_key. cbn [transforms]. apply lookup_insert_eq. Qed.

Lemma vec3_eta (v : vec3) : V3 (vx v) (vy v) (vz v) = v.
Proof. destruct v; reflexivity. Qed.

Lemma cols_T_array2d (a b c : vec3) :
  col0 (T (array2d a b c)) = a /\ col1 (T (array2d a b c)) = b /\
  col2 (T (array2d a b c)) = c.
Proof. destruct a, b, c. repeat split. Qed.

Lemma dot_cross_l (a b : vec3) : (dot (cross a b) a == 0)%Q.
Proof. unfold dot, cross. cbn [vx vy vz]. ring. Qed.

Lemma dot_cross_r (a b : vec3) : (dot (cross a b) b == 0)%Q.
Proof. unfold dot, cross. cbn [vx vy vz]. ring. Qed.

Lemma dot_self_nonneg (a : vec3) : (0 <= dot a a)%Q.
Proof. unfold dot. nra. Qed.

Lemma demo_constructed :
  Station_call (demo_geometry (V3 1 0 0)) 0 4 2 None = (Ok demo_station, demo_world).
Proof. vm_compute. reflexivity. Qed.

(** C1: the face-orientation sign is -1 for a negative wheel, +1 for a
    positive wheel and, for wheel 0, -1 exactly on the sectors 1, 4, 5, 8, 9,
    12, 13; every constructed Station carries this one sign in the three
    registered rotations: on the y axis of Station->CMS, on the y axis of the
    phi natural view and on the x axis of the eta natural view. *)
Theorem face_orientation_rule (wheel sector : Z) :
  -2 <= wheel <= 2 -> 1 <= sector <= 14 ->
  (wheel < 0 -> face_orientation wheel sector = -1) /\
  (wheel > 0 -> face_orientation wheel sector = 1) /\
  (wheel = 0 -> In sector [1; 4; 5; 8; 9; 12; 13] ->
   face_orientation wheel sector = -1) /\
  (wheel = 0 -> ~ In sector [1; 4; 5; 8; 9; 12; 13] ->
   face_orientation wheel sector = 1) /\
  forall G station info st w,
    Station_call G wheel sector station info = (Ok st, w) ->
    exists tm cms phi eta,
      transformer st = Some tm /\
      transforms tm !! CMS_key = Some cms /\
      transforms tm !! NvPhi_key = Some phi /\
      transforms tm !! NvEta_key = Some eta /\
      col1 (rotation_matrix cms) =
        vmul (array 0 0 1) (face_orientation wheel sector) /\
      col1 (rotation_matrix phi) =
        vmul (array 0 (-1) 0) (face_orientation wheel sector) /\
      col0 (rotation_matrix eta) =
        vmul (array (-1) 0 0) (face_orientation wheel sector).
Proof.
  intros _ _. unfold face_orientation at 1 2 3 4.
  split; [intros H; destruct (Z.ltb_spec wheel 0); [reflexivity | lia] |].
  split; [intros H; destruct (Z.ltb_spec wheel 0); [lia |];
          destruct (Z.gtb_spec wheel 0); [reflexivity | lia] |].
  split; [intros -> Hin; cbn [Z.ltb Z.gtb Z.compare];
          destruct (existsb _ _) eqn:E; [reflexivity |];
          rewrite <- not_true_iff_false in E; exfalso; apply E;
          apply existsb_exists; exists sector; split; [exact Hin | apply Z.eqb_refl] |].
  split; [intros -> Hin; cbn [Z.ltb Z.gtb Z.compare];
          destruct (existsb _ _) eqn:E; [| reflexivity];
          apply existsb_exists in E as (x & Hx & Ex); apply Z.eqb_eq in Ex; subst x;
          contradiction |].
  intros G station info st w H.
  apply Station_call_ok in H
    as (-> & _ & _ & _ & id & lc & gc & d & b & _ & _ & _ & _ & _ & _ & _ & _ & _
        & _ & _ & _ & Htm & _).
  eexists _, _, _, _. split; [exact Htm |].
  rewrite registered_CMS, registered_NvPhi, registered_NvEta.
  repeat (split; [reflexivity |]). cbn [rotation_matrix].
  repeat split; apply cols_T_array2d.
Qed.

Lemma face_orientation_rule_witness :
  face_orientation 0 4 = -1 /\
  exists tm cms phi eta,
    transformer demo_station = Some tm /\
    transforms tm !! CMS_key = Some cms /\
    transforms tm !! NvPhi_key = Some phi /\
    transforms tm !! NvEta_key = Some eta /\
    col1 (rotation_matrix cms) = vmul (array 0 0 1) (face_orientation 0 4) /\
    col1 (rotation_matrix phi) = vmul (array 0 (-1) 0) (face_orientation 0 4) /\
    col0 (rotation_matrix eta) = vmul (array (-1) 0 0) (face_orientation 0 4).
Proof.
  destruct (face_orientation_rule 0 4 ltac:(lia) ltac:(lia)) as (_ & _ & Hin & _ & Hall).
  split.
  - apply Hin; [reflexivity | simpl; tauto].
  - apply (Hall (demo_geometry (V3 1 0 0)) 2 None demo_station demo_world).
    exact demo_constructed.
Defined.

Lemma sq_sum_pos (x y : Q) :
  (0 < x * x + y * y)%Q <-> ~ ((x == 0)%Q /\ (y == 0)%Q).
Proof.
  split.
  - intros H [Hx Hy]. rewrite Hx, Hy in H. discriminate H.
  - intros H. destruct (Qlt_le_dec 0 (x * x + y * y)) as [Hp | Hn]; [exact Hp |].
    exfalso. apply H. split; nra.
Qed.

Lemma triple_cms (s : Z) (d : vec3) :
  s = -1 \/ s = 1 ->
  (triple (cross (vmul (array 0 0 1) s) d) (vmul (array 0 0 1) s) d
   == vx d * vx d + vy d * vy d)%Q.
Proof.
  intros [-> | ->]; unfold triple, dot, cross, vmul, array, inject_Z;
    cbn [vx vy vz]; ring.
Qed.

(** C2 (as stated) fails: a station constructed on a geometry source whose
    measured normal is the vertical axis (0,0,1) has, in the rotation
    registered for Station->CMS, ez = (0,0,1) and ey = (0,0,1), so the
    computed ex = ey x ez is the zero vector and the determinant is 0: the
    three columns form no frame, right-handed or other. *)
Lemma cms_rotation_axes_counterexample :
  exists st w tm cms,
    Station_call (demo_geometry (V3 0 0 1)) 1 1 1 None = (Ok st, w) /\
    transformer st = Some tm /\
    transforms tm !! CMS_key = Some cms /\
    col2 (rotation_matrix cms) = V3 0 0 1 /\
    col1 (rotation_matrix cms) = vmul (array 0 0 1) (face_orientation 1 1) /\
    col0 (rotation_matrix cms) =
      cross (col1 (rotation_matrix cms)) (col2 (rotation_matrix cms)) /\
    (vx (col0 (rotation_matrix cms)) == 0)%Q /\
    (vy (col0 (rotation_matrix cms)) == 0)%Q /\
    (vz (col0 (rotation_matrix cms)) == 0)%Q /\
    ~ (0 < triple (col0 (rotation_matrix cms)) (col1 (rotation_matrix cms))
                  (col2 (rotation_matrix cms)))%Q.
Proof.
  eexists _, _, _, _.
  split; [vm_compute; reflexivity |].
  split; [vm_compute; reflexivity |].
  split; [vm_compute; reflexivity |].
  repeat (split; [vm_compute; reflexivity |]).
  vm_compute. discriminate.
Qed.

(** C2 (amended): in every constructed Station the rotation registered for
    Station->CMS has the columns ex, ey, ez with ez the measured normal
    [direction] supplied by the geometry source, ey the vertical axis (0,0,1)
    scaled by the face-orientation sign and ex = ey x ez, perpendicular to
    both; the determinant is |ex|^2 = dx^2 + dy^2 for the normal
    (dx, dy, dz), so the three columns close a right-handed frame exactly
    when the normal is not vertical; the translation passed along and
    stored is the global position. *)
Theorem cms_rotation_axes (G : Geometry) (wheel sector station : Z)
    (info : option DtInfo) (st : Station) (w : World) :
  Station_call G wheel sector station info = (Ok st, w) ->
  exists id d g tm cms,
    geo_rawId G wheel sector station = Ok id /\
    geo_NormalVector G id = Ok d /\
    geo_GlobalPosition G id = Ok g /\
    _direction (frame st) = Some d /\
    _x_global (frame st) = Some (vx g) /\
    _y_global (frame st) = Some (vy g) /\
    _z_global (frame st) = Some (vz g) /\
    transformer st = Some tm /\
    transforms tm !! CMS_key = Some cms /\
    col2 (rotation_matrix cms) = d /\
    col1 (rotation_matrix cms) =
      vmul (array 0 0 1) (face_orientation wheel sector) /\
    col0 (rotation_matrix cms) =
      cross (col1 (rotation_matrix cms)) (col2 (rotation_matrix cms)) /\
    (dot (col0 (rotation_matrix cms)) (col1 (rotation_matrix cms)) == 0)%Q /\
    (dot (col0 (rotation_matrix cms)) (col2 (rotation_matrix cms)) == 0)%Q /\
    triple (col0 (rotation_matrix cms)) (col1 (rotation_matrix cms))
           (col2 (rotation_matrix cms)) =
      dot (col0 (rotation_matrix cms)) (col0 (rotation_matrix cms)) /\
    (triple (col0 (rotation_matrix cms)) (col1 (rotation_matrix cms))
            (col2 (rotation_matrix cms))
     == vx d * vx d + vy d * vy d)%Q /\
    ((0 < triple (col0 (rotation_matrix cms)) (col1 (rotation_matrix cms))
                 (col2 (rotation_matrix cms)))%Q
     <-> ~ ((vx d == 0)%Q /\ (vy d == 0)%Q)) /\
    translation_vector cms = g /\
    In (TransformAdd "Station" "CMS" (rotation_matrix cms) (Some g)) (trace w).
Proof.
  intros H.
  apply Station_call_ok in H
    as (-> & _ & _ & _ & id & lc & gc & d & b & G1 & _ & G3 & G4 & _ & _ & _ & _
        & Hd & Hx & Hy & Hz & Htm & _ & t & Ht).
  exists id, d, gc. eexists _, _.
  repeat (split; [eassumption |]).
  rewrite registered_CMS. split; [reflexivity |]. cbn [rotation_matrix translation_vector].
  destruct (cols_T_array2d (cross (vmul (array 0 0 1) (face_orientation wheel sector)) d)
              (vmul (array 0 0 1) (face_orientation wheel sector)) d) as (-> & -> & ->).
  split; [reflexivity |]. split; [reflexivity |]. split; [reflexivity |].
  split; [apply dot_cross_l |]. split; [apply dot_cross_r |].
  split; [reflexivity |].
  pose proof (triple_cms (face_orientation wheel sector) d
                (face_orientation_cases wheel sector)) as Ht3.
  split; [exact Ht3 |].
  split; [rewrite Ht3; apply sq_sum_pos |].
  split; [apply vec3_eta |].
  rewrite Ht. apply in_or_app. right. apply in_or_app. left.
  unfold add_calls. rewrite vec3_eta. left. reflexivity.
Qed.

Lemma cms_rotation_axes_witness :
  exists id d g tm cms,
    geo_rawId (demo_geometry (V3 1 0 0)) 0 4 2 = Ok id /\
    geo_NormalVector (demo_geometry (V3 1 0 0)) id = Ok d /\
    geo_GlobalPosition (demo_geometry (V3 1 0 0)) id = Ok g /\
    _direction (frame demo_station) = Some d /\
    _x_global (frame demo_station) = Some (vx g) /\
    _y_global (frame demo_station) = Some (vy g) /\
    _z_global (frame demo_station) = Some (vz g) /\
    transformer demo_station = Some tm /\
    transforms tm !! CMS_key = Some cms /\
    col2 (rotation_matrix cms) = d /\
    col1 (rotation_matrix cms) = vmul (array 0 0 1) (face_orientation 0 4) /\
    col0 (rotation_matrix cms) =
      cross (col1 (rotation_matrix cms)) (col2 (rotation_matrix cms)) /\
    (dot (col0 (rotation_matrix cms)) (col1 (rotation_matrix cms)) == 0)%Q /\
    (dot (col0 (rotation_matrix cms)) (col2 (rotation_matrix cms)) == 0)%Q /\
    triple (col0 (rotation_matrix cms)) (col1 (rotation_matrix cms))
           (col2 (rotation_matrix cms)) =
      dot (col0 (rotation_matrix cms)) (col0 (rotation_matrix cms)) /\
    (triple (col0 (rotation_matrix cms)) (col1 (rotation_matrix cms))
            (col2 (rotation_matrix cms))
     == vx d * vx d + vy d * vy d)%Q /\
    ((0 < triple (col0 (rotation_matrix cms)) (col1 (rotation_matrix cms))
                 (col2 (rotation_matrix cms)))%Q
     <-> ~ ((vx d == 0)%Q /\ (vy d == 0)%Q)) /\
    translation_vector cms = g /\
    In (TransformAdd "Station" "CMS" (rotation_matrix cms) (Some g))
       (trace demo_world).
Proof.
  apply (cms_rotation_axes (demo_geometry (V3 1 0 0)) 0 4 2 None).
  vm_compute. reflexivity.
Defined.

(** C3: in every constructed Station both natural-view rotations have the
    fixed z axis (0,0,-1); the phi view has the y axis (0,-1,0) scaled by the
    face-orientation sign and its x axis is y x z; the eta view has the x
    axis (-1,0,0) scaled by the sign and its y axis is z x x; the derived
    axis is perpendicular to the other two; both are added without a
    translation argument and stored with the zero translation. *)
Theorem natural_view_rotations (G : Geometry) (wheel sector station : Z)
    (info : option DtInfo) (st : Station) (w : World) :
  Station_call G wheel sector station info = (Ok st, w) ->
  exists tm phi eta,
    transformer st = Some tm /\
    transforms tm !! NvPhi_key = Some phi /\
    transforms tm !! NvEta_key = Some eta /\
    col2 (rotation_matrix phi) = array 0 0 (-1) /\
    col1 (rotation_matrix phi) =
      vmul (array 0 (-1) 0) (face_orientation wheel sector) /\
    col0 (rotation_matrix phi) =
      perpendicular_to_vectors (col1 (rotation_matrix phi)) (col2 (rotation_matrix phi)) /\
    (dot (col0 (rotation_matrix phi)) (col1 (rotation_matrix phi)) == 0)%Q /\
    (dot (col0 (rotation_matrix phi)) (col2 (rotation_matrix phi)) == 0)%Q /\
    col2 (rotation_matrix eta) = array 0 0 (-1) /\
    col0 (rotation_matrix eta) =
      vmul (array (-1) 0 0) (face_orientation wheel sector) /\
    col1 (rotation_matrix eta) =
      perpendicular_to_vectors (col2 (rotation_matrix eta)) (col0 (rotation_matrix eta)) /\
    (dot (col1 (rotation_matrix eta)) (col2 (rotation_matrix eta)) == 0)%Q /\
    (dot (col1 (rotation_matrix eta)) (col0 (rotation_matrix eta)) == 0)%Q /\
    translation_vector phi = vzero /\
    translation_vector eta = vzero /\
    In (TransformAdd "Station" "StationNvPhi" (rotation_matrix phi) None) (trace w) /\
    In (TransformAdd "Station" "StationNvEta" (rotation_matrix eta) None) (trace w).
Proof.
  intros H.
  apply Station_call_ok in H
    as (-> & _ & _ & _ & id & lc & gc & d & b & _ & _ & _ & _ & _ & _ & _ & _
        & _ & _ & _ & _ & Htm & _ & t & Ht).
  eexists _, _, _. split; [exact Htm |].
  rewrite registered_NvPhi, registered_NvEta.
  split; [reflexivity |]. split; [reflexivity |].
  cbn [rotation_matrix translation_vector]. unfold perpendicular_to_vectors.
  set (s := face_orientation wheel sector) in *.
  destruct (cols_T_array2d (cross (vmul (array 0 (-1) 0) s) (array 0 0 (-1)))
              (vmul (array 0 (-1) 0) s) (array 0 0 (-1))) as (-> & -> & ->).
  destruct (cols_T_array2d (vmul (array (-1) 0 0) s)
              (cross (array 0 0 (-1)) (vmul (array (-1) 0 0) s))
              (array 0 0 (-1))) as (-> & -> & ->).
  repeat (split; [first [reflexivity | apply dot_cross_l | apply dot_cross_r] |]).
  rewrite Ht. unfold add_calls.
  split; apply in_or_app; right; apply in_or_app; left; simpl; auto.
Qed.

Lemma natural_view_rotations_witness :
  exists tm phi eta,
    transformer demo_station = Some tm /\
    transforms tm !! NvPhi_key = Some phi /\
    transforms tm !! NvEta_key = Some eta /\
    col2 (rotation_matrix phi) = array 0 0 (-1) /\
    col1 (rotation_matrix phi) = vmul (array 0 (-1) 0) (face_orientation 0 4) /\
    col0 (rotation_matrix phi) =
      perpendicular_to_vectors (col1 (rotation_matrix phi)) (col2 (rotation_matrix phi)) /\
    (dot (col0 (rotation_matrix phi)) (col1 (rotation_matrix phi)) == 0)%Q /\
    (dot (col0 (rotation_matrix phi)) (col2 (rotation_matrix phi)) == 0)%Q /\
    col2 (rotation_matrix eta) = array 0 0 (-1) /\
    col0 (rotation_matrix eta) = vmul (array (-1) 0 0) (face_orientation 0 4) /\
    col1 (rotation_matrix eta) =
      perpendicular_to_vectors (col2 (rotation_matrix eta)) (col0 (rotation_matrix eta)) /\
    (dot (col1 (rotation_matrix eta)) (col2 (rotation_matrix eta)) == 0)%Q /\
    (dot (col1 (rotation_matrix eta)) (col0 (rotation_matrix eta)) == 0)%Q /\
    translation_vector phi = vzero /\
    translation_vector eta = vzero /\
    In (TransformAdd "Station" "StationNvPhi" (rotation_matrix phi) None)
       (trace demo_world) /\
    In (TransformAdd "Station" "StationNvEta" (rotation_matrix eta) None)
       (trace demo_world).
Proof.
  apply (natural_view_rotations (demo_geometry (V3 1 0 0)) 0 4 2 None).
  vm_compute. reflexivity.
Defined.

(** ** Orthonormality *)

Lemma near_iff (a b : Q) : near a b <-> (- tol <= a - b <= tol)%Q.
Proof. unfold near. apply Qabs_Qle_condition. Qed.

Lemma orthonormal_NvPhi (s : Z) :
  s = -1 \/ s = 1 ->
  orthonormal (T (array2d (cross (vmul (array 0 (-1) 0) s) (array 0 0 (-1)))
                    (vmul (array 0 (-1) 0) s) (array 0 0 (-1)))).
Proof.
  intros [-> | ->]; unfold orthonormal; repeat split; vm_compute; discriminate.
Qed.

Lemma orthonormal_NvEta (s : Z) :
  s = -1 \/ s = 1 ->
  orthonormal (T (array2d (vmul (array (-1) 0 0) s)
                    (cross (array 0 0 (-1)) (vmul (array (-1) 0 0) s))
                    (array 0 0 (-1)))).
Proof.
  intros [-> | ->]; unfold orthonormal; repeat split; vm_compute; discriminate.
Qed.

Lemma orthonormal_CMS (s : Z) (d : vec3) :
  s = -1 \/ s = 1 ->
  orthonormal (T (array2d (cross (vmul (array 0 0 1) s) d) (vmul (array 0 0 1) s) d))
  <-> near (vx d * vx d + vy d * vy d)%Q 1 /\ near (dot d d) 1 /\ near (vz d) 0.
Proof.
  intros Hs. unfold orthonormal.
  destruct (cols_T_array2d (cross (vmul (array 0 0 1) s) d) (vmul (array 0 0 1) s) d)
    as (-> & -> & ->).
  rewrite !near_iff. unfold dot, cross, vmul, array, tol. cbn [vx vy vz].
  destruct d as [x y z]. cbn [vx vy vz].
  destruct Hs as [-> | ->]; unfold inject_Z; split; intros H; repeat split; lra.
Qed.

(** C4 (as stated) fails: a chamber whose measured unit normal is the
    vertical axis itself is constructed, and the ex column of its registered
    Station->CMS rotation is the zero vector. *)
Lemma orthonormal_every_input_counterexample :
  exists st w tm cms,
    Station_call (demo_geometry (V3 0 0 1)) 1 1 1 None = (Ok st, w) /\
    (dot (V3 0 0 1) (V3 0 0 1) == 1)%Q /\
    transformer st = Some tm /\
    transforms tm !! CMS_key = Some cms /\
    (dot (col0 (rotation_matrix cms)) (col0 (rotation_matrix cms)) == 0)%Q /\
    ~ orthonormal (rotation_matrix cms).
Proof.
  eexists _, _, _, _.
  split; [vm_compute; reflexivity |].
  split; [reflexivity |].
  split; [vm_compute; reflexivity |].
  split; [vm_compute; reflexivity |].
  split; [vm_compute; reflexivity |].
  intros (H & _). vm_compute in H. apply H. reflexivity.
Qed.

(** C4 (amended): in every constructed Station the two natural-view
    rotations are orthonormal, whatever the geometry source supplies; the
    Station->CMS rotation is orthonormal within the tolerance exactly when
    the measured normal d satisfies |dx^2 + dy^2 - 1| <= 1e-9,
    |dx^2 + dy^2 + dz^2 - 1| <= 1e-9 and |dz| <= 1e-9, that is, when it is a
    unit vector perpendicular to the vertical axis. *)
Theorem registered_rotations_orthonormal (G : Geometry) (wheel sector station : Z)
    (info : option DtInfo) (st : Station) (w : World) :
  Station_call G wheel sector station info = (Ok st, w) ->
  exists d tm cms phi eta,
    _direction (frame st) = Some d /\
    transformer st = Some tm /\
    transforms tm !! CMS_key = Some cms /\
    transforms tm !! NvPhi_key = Some phi /\
    transforms tm !! NvEta_key = Some eta /\
    orthonormal (rotation_matrix phi) /\
    orthonormal (rotation_matrix eta) /\
    (orthonormal (rotation_matrix cms) <->
     near (vx d * vx d + vy d * vy d)%Q 1 /\ near (dot d d) 1 /\ near (vz d) 0).
Proof.
  intros H.
  apply Station_call_ok in H
    as (-> & _ & _ & _ & id & lc & gc & d & b & _ & _ & _ & _ & _ & _ & _ & _
        & Hd & _ & _ & _ & Htm & _).
  exists d. eexists _, _, _, _.
  split; [exact Hd |]. split; [exact Htm |].
  rewrite registered_CMS, registered_NvPhi, registered_NvEta.
  repeat (split; [reflexivity |]). cbn [rotation_matrix].
  pose proof (face_orientation_cases wheel sector) as Hs.
  split; [apply orthonormal_NvPhi, Hs |].
  split; [apply orthonormal_NvEta, Hs |].
  apply orthonormal_CMS, Hs.
Qed.

Lemma registered_rotations_orthonormal_witness :
  exists d tm cms phi eta,
    _direction (frame demo_station) = Some d /\
    transformer demo_station = Some tm /\
    transforms tm !! CMS_key = Some cms /\
    transforms tm !! NvPhi_key = Some phi /\
    transforms tm !! NvEta_key = Some eta /\
    orthonormal (rotation_matrix phi) /\
    orthonormal (rotation_matrix eta) /\
    (orthonormal (rotation_matrix cms) <->
     near (vx d * vx d + vy d * vy d)%Q 1 /\ near (dot d d) 1 /\ near (vz d) 0).
Proof.
  apply (registered_rotations_orthonormal (demo_geometry (V3 1 0 0)) 0 4 2 None
           demo_station demo_world).
  vm_compute. reflexivity.
Defined.

(** ** Rejection of an invalid configuration *)

(** C5: when wheel, sector or station number is out of range, the
    constructor call raises the ValueError of the first offending setter; no
    geometry query has been issued, no transform registered and no node
    built (the trace is empty), the caller receives no object, and the
    object under construction has neither a transformer nor a list of super
    layers nor any pose attribute. *)
Theorem invalid_configuration_rejected (G : Geometry) (wheel sector station : Z)
    (info : option DtInfo) :
  wheel < -2 \/ wheel > 2 \/ sector < 1 \/ sector > 14 \/ station < 1 \/ station > 4 ->
  exists msg w,
    Station_call G wheel sector station info = (Raise (ValueError msg), w) /\
    trace w = [] /\
    transformer (self w) = None /\
    _super_layers (self w) = None /\
    frame (self w) = DTFrame_new.
Proof.
  intros H. unfold Station_call, __init__.
  rewrite bind_run. unfold wheel_setter.
  destruct ((wheel <? -2) || (wheel >? 2)) eqn:C1.
  { eexists _, _. cbn. repeat split. }
  cbn [modify self trace]. rewrite bind_run. unfold sector_setter.
  destruct ((sector <? 1) || (sector >? 14)) eqn:C2.
  { eexists _, _. cbn. repeat split. }
  cbn [modify self trace]. rewrite bind_run. unfold number_setter.
  destruct ((station <? 1) || (station >? 4)) eqn:C3.
  { eexists _, _. cbn. repeat split. }
  exfalso. lia.
Qed.

Lemma invalid_configuration_rejected_witness :
  exists msg w,
    Station_call (demo_geometry (V3 1 0 0)) 0 15 2 None = (Raise (ValueError msg), w) /\
    trace w = [] /\
    transformer (self w) = None /\
    _super_layers (self w) = None /\
    frame (self w) = DTFrame_new.
Proof.
  apply (invalid_configuration_rejected (demo_geometry (V3 1 0 0)) 0 15 2 None).
  lia.
Defined.

(** ** Ingestion of the cell attributes *)

Lemma set_cell_attrs_item_eq (r : record) :
  set_cell_attrs_item r =
    if negb (well_identified r)
    then raise (ValueError
      "The drift cell information must contain the super layer, layer, and wire identifiers.")
    else locate_and_assign (identifier r "sl") (identifier r "l") (identifier r "w")
           (attributes r).
Proof.
  unfold set_cell_attrs_item, pop, well_identified, identifier, attributes.
  rewrite !lookup_delete_ne by discriminate. reflexivity.
Qed.

Lemma set_cell_attrs_records (info : DtInfo) (l : list record) (w : World) :
  records_of info = Some l ->
  set_cell_attrs info w = for_each set_cell_attrs_item l w.
Proof.
  destruct info; intros H; inversion H; subst; reflexivity.
Qed.

(** A record that fails the identifier check stops the call where the
    earlier records have left the station. *)
Lemma unidentified_aborts (w w1 : World) (info : DtInfo)
    (pre post : list record) (r : record) :
  records_of info = Some (pre ++ r :: post) ->
  for_each set_cell_attrs_item pre w = (Ok tt, w1) ->
  well_identified r = false ->
  exists msg, set_cell_attrs info w = (Raise (ValueError msg), w1).
Proof.
  intros Hinfo Hpre Hbad. eexists.
  rewrite (set_cell_attrs_records _ _ _ Hinfo).
  rewrite (for_each_app _ _ _ _ _ Hpre). cbn [for_each].
  rewrite bind_run, set_cell_attrs_item_eq, Hbad. reflexivity.
Qed.

Lemma identifier_missing (r : record) (key : string) :
  r !! key = None -> truthy (identifier r key) = false.
Proof. intros H. unfold identifier. rewrite H. reflexivity. Qed.

Lemma identifier_falsy (r : record) (key : string) (v : pyval) :
  r !! key = Some v -> truthy v = false -> truthy (identifier r key) = false.
Proof. intros H Hv. unfold identifier. rewrite H. exact Hv. Qed.

Lemma well_identified_false (r : record) (key : string) :
  In key ["sl"; "l"; "w"] -> truthy (identifier r key) = false ->
  well_identified r = false.
Proof.
  unfold well_identified.
  intros [<- | [<- | [<- | []]]] ->;
    rewrite ?andb_false_r, ?andb_false_l; reflexivity.
Qed.

(** C6 (as stated) fails: a list whose first record is complete and whose
    second record has no wire identifier raises the ValueError, but by then
    the first record has set [time] on its cell. *)
Lemma missing_identifier_counterexample :
  rec_no_wire !! "w" = None /\
  In rec_no_wire [rec_time; rec_no_wire] /\
  cell_attr (self demo_world) 1 1 2 "time" = None /\
  exists msg w',
    set_cell_attrs (InfoList [rec_time; rec_no_wire]) demo_world
      = (Raise (ValueError msg), w') /\
    cell_attr (self w') 1 1 2 "time" = Some (PyInt 300) /\
    _super_layers (self w') <> _super_layers (self demo_world).
Proof.
  split; [vm_compute; reflexivity |].
  split; [simpl; tauto |].
  split; [vm_compute; reflexivity |].
  eexists _, (snd (set_cell_attrs (InfoList [rec_time; rec_no_wire]) demo_world)).
  split; [vm_compute; reflexivity |].
  split; [vm_compute; reflexivity |].
  intros H.
  apply (f_equal (fun o : option (list SuperLayer.t) =>
                    sls ← o ; tree_cell_attr sls 1 1 2 "time")) in H.
  vm_compute in H. discriminate H.
Qed.

(** C6 (amended): a record that lacks one of sl, l, w raises the ValueError
    as soon as the loop reaches it, provided the records before it were
    ingested without an exception; the call ends there, so neither that
    record nor a later one changes a cell, and the station is left as the
    earlier records made it: unchanged when the record comes first. *)
Theorem missing_identifier_aborts (w w1 : World) (info : DtInfo)
    (pre post : list record) (r : record) :
  records_of info = Some (pre ++ r :: post) ->
  for_each set_cell_attrs_item pre w = (Ok tt, w1) ->
  r !! "sl" = None \/ r !! "l" = None \/ r !! "w" = None ->
  (exists msg, set_cell_attrs info w = (Raise (ValueError msg), w1)) /\
  (pre = [] -> w1 = w).
Proof.
  intros Hinfo Hpre Hmiss. split.
  - apply (unidentified_aborts w w1 info pre post r Hinfo Hpre).
    destruct Hmiss as [H | [H | H]].
    + apply (well_identified_false r "sl"); [simpl; tauto | apply identifier_missing, H].
    + apply (well_identified_false r "l"); [simpl; tauto | apply identifier_missing, H].
    + apply (well_identified_false r "w"); [simpl; tauto | apply identifier_missing, H].
  - intros ->. cbn in Hpre. inversion Hpre. reflexivity.
Qed.

Lemma missing_identifier_aborts_witness :
  (exists msg,
     set_cell_attrs (InfoList [rec_time; rec_no_wire; rec_sl99]) demo_world
     = (Raise (ValueError msg),
        snd (for_each set_cell_attrs_item [rec_time] demo_world))) /\
  ([rec_time] = [] ->
   snd (for_each set_cell_attrs_item [rec_time] demo_world) = demo_world).
Proof.
  apply (missing_identifier_aborts demo_world
           (snd (for_each set_cell_attrs_item [rec_time] demo_world))
           (InfoList [rec_time; rec_no_wire; rec_sl99])
           [rec_time] [rec_sl99] rec_no_wire).
  - reflexivity.
  - vm_compute. reflexivity.
  - right. right. vm_compute. reflexivity.
Defined.

(** C9: a record in which sl, l or w is present with a falsy value (0, 0.0,
    False, the empty string, None) is rejected like a record without it: the
    ValueError is raised when the loop reaches the record, and the call ends
    with the station as the earlier records left it. *)
Theorem falsy_identifier_rejected (w w1 : World) (info : DtInfo)
    (pre post : list record) (r : record) (key : string) (v : pyval) :
  records_of info = Some (pre ++ r :: post) ->
  for_each set_cell_attrs_item pre w = (Ok tt, w1) ->
  In key ["sl"; "l"; "w"] ->
  r !! key = Some v ->
  truthy v = false ->
  is_Some (r !! "sl") /\ is_Some (r !! "l") /\ is_Some (r !! "w") ->
  exists msg, set_cell_attrs info w = (Raise (ValueError msg), w1).
Proof.
  intros Hinfo Hpre Hkey Hv Hfalsy _.
  apply (unidentified_aborts w w1 info pre post r Hinfo Hpre).
  apply (well_identified_false r key Hkey).
  apply (identifier_falsy r key v Hv Hfalsy).
Qed.

Lemma falsy_identifier_rejected_witness :
  exists msg,
    set_cell_attrs (InfoDict rec_wire_zero) demo_world
    = (Raise (ValueError msg), demo_world).
Proof.
  apply (falsy_identifier_rejected demo_world demo_world (InfoDict rec_wire_zero)
           [] [] rec_wire_zero "w" (PyInt 0)).
  - reflexivity.
  - reflexivity.
  - simpl. tauto.
  - vm_compute. reflexivity.
  - reflexivity.
  - repeat split; vm_compute; eauto.
Defined.

(** ** Linear search *)

Lemma find_None_iff {A} (p : A -> bool) (l : list A) :
  find p l = None <-> forall x, In x l -> p x = false.
Proof.
  induction l as [|a l IH]; simpl.
  - split; [intros _ x [] | reflexivity].
  - destruct (p a) eqn:E.
    + split; [discriminate |]. intros H. rewrite (H a) in E by auto. discriminate.
    + rewrite IH. split.
      * intros H x [<- | Hx]; auto.
      * intros H x Hx. apply H. auto.
Qed.

Lemma find_Some_first {A} (p : A -> bool) (l : list A) (a : A) :
  find p l = Some a <->
  exists pre post, l = pre ++ a :: post /\ p a = true /\
                   forall x, In x pre -> p x = false.
Proof.
  induction l as [|b l IH]; simpl.
  - split; [discriminate |]. intros (pre & post & H & _). destruct pre; discriminate.
  - destruct (p b) eqn:E.
    + split.
      * intros H. inversion H; subst. exists [], l. repeat split; auto. intros x [].
      * intros (pre & post & H & Ha & Hpre). destruct pre as [|c pre].
        -- inversion H. reflexivity.
        -- inversion H; subst. rewrite (Hpre c) in E by (left; reflexivity).
           discriminate.
    + rewrite IH. split.
      * intros (pre & post & -> & Ha & Hpre). exists (b :: pre), post.
        repeat split; auto. intros x [<- | Hx]; auto.
      * intros (pre & post & H & Ha & Hpre). destruct pre as [|c pre].
        -- inversion H; subst. congruence.
        -- inversion H; subst. exists pre, post. repeat split; auto.
           intros x Hx. apply Hpre. right. exact Hx.
Qed.

Lemma super_layer_run (w : World) (sls : list SuperLayer.t) (n : pyval) :
  _super_layers (self w) = Some sls ->
  super_layer n w =
    (Ok (find (fun sl => py_eq (PyInt (SuperLayer.number sl)) n) sls), w).
Proof.
  intros H. unfold super_layer.
  rewrite (bind_ok _ _ _ _ _ (attr_ok _ _ _ _ H)). reflexivity.
Qed.

(** C8: on a station whose super layers are in place, [super_layer(n)]
    returns without raising and leaves the station as it is; the result is
    the first super layer, in the order of the list, whose number equals
    [n], and it is [None] exactly when no super layer has that number. *)
Theorem super_layer_linear_search (w : World) (sls : list SuperLayer.t) (n : pyval) :
  _super_layers (self w) = Some sls ->
  exists res,
    super_layer n w = (Ok res, w) /\
    (forall s, res = Some s <->
       exists pre post, sls = pre ++ s :: post /\
         py_eq (PyInt (SuperLayer.number s)) n = true /\
         forall x, In x pre -> py_eq (PyInt (SuperLayer.number x)) n = false) /\
    (res = None <->
       forall x, In x sls -> py_eq (PyInt (SuperLayer.number x)) n = false).
Proof.
  intros H. eexists. split; [apply (super_layer_run w sls n H) |].
  split.
  - intros s.
    apply (find_Some_first (fun sl => py_eq (PyInt (SuperLayer.number sl)) n)).
  - apply (find_None_iff (fun sl => py_eq (PyInt (SuperLayer.number sl)) n)).
Qed.

Lemma super_layer_linear_search_witness :
  exists res,
    super_layer (PyInt 3) demo_world = (Ok res, demo_world) /\
    (forall s, res = Some s <->
       exists pre post,
         [demo_super_layer 1; demo_super_layer 3] = pre ++ s :: post /\
         py_eq (PyInt (SuperLayer.number s)) (PyInt 3) = true /\
         forall x, In x pre -> py_eq (PyInt (SuperLayer.number x)) (PyInt 3) = false) /\
    (res = None <->
       forall x, In x [demo_super_layer 1; demo_super_layer 3] ->
                 py_eq (PyInt (SuperLayer.number x)) (PyInt 3) = false).
Proof.
  apply (super_layer_linear_search demo_world
           [demo_super_layer 1; demo_super_layer 3] (PyInt 3)).
  vm_compute. reflexivity.
Defined.

(** ** The warning path and the unguarded descent *)

Lemma name_constructed (w : World) :
  constructed (self w) -> exists nm, name w = (Ok nm, w).
Proof.
  intros ([wh Hw] & [sec Hs] & [num Hn] & _). eexists. unfold name.
  rewrite (bind_ok _ _ _ _ _ (attr_ok _ _ _ _ Hw)).
  rewrite (bind_ok _ _ _ _ _ (attr_ok _ _ _ _ Hs)).
  rewrite (bind_ok _ _ _ _ _ (attr_ok _ _ _ _ Hn)).
  reflexivity.
Qed.

Lemma keeps_constructed (w w1 : World) :
  keeps w w1 -> constructed (self w) -> constructed (self w1).
Proof.
  unfold keeps, constructed.
  intros (-> & -> & -> & _ & -> & H & _) (? & ? & ? & ? & ?). auto 10.
Qed.

(** C7 (as stated) fails: the record names super layer 99, which the
    station does not have, and carries no wire identifier; the identifier
    check comes before the lookup of the super layer, so the call raises the
    ValueError, issues no warning and leaves the station as it was. *)
Lemma absent_super_layer_counterexample :
  _super_layers (self demo_world) = Some [demo_super_layer 1; demo_super_layer 3] /\
  (forall s, In s [demo_super_layer 1; demo_super_layer 3] ->
     py_eq (PyInt (SuperLayer.number s)) (identifier rec_sl99_no_wire "sl") = false) /\
  exists msg,
    set_cell_attrs (InfoDict rec_sl99_no_wire) demo_world
    = (Raise (ValueError msg), demo_world).
Proof.
  split; [vm_compute; reflexivity |].
  split; [intros s [<- | [<- | []]]; vm_compute; reflexivity |].
  eexists. vm_compute. reflexivity.
Qed.

Lemma absent_item_run (w : World) (r : record) (sls : list SuperLayer.t)
    (nm : string) :
  _super_layers (self w) = Some sls ->
  name w = (Ok nm, w) ->
  well_identified r = true ->
  (forall s, In s sls ->
     py_eq (PyInt (SuperLayer.number s)) (identifier r "sl") = false) ->
  set_cell_attrs_item r w =
    (Ok tt,
     {| self := self w;
        trace := trace w ++ [Warn (SuperLayerDoesNotExist (identifier r "sl") nm)] |}).
Proof.
  intros Hsls Hnm Hid Habsent.
  rewrite set_cell_attrs_item_eq, Hid. cbn [negb]. unfold locate_and_assign.
  rewrite (bind_ok _ _ _ _ _ (super_layer_run w sls _ Hsls)).
  replace (find _ sls) with (@None SuperLayer.t)
    by (symmetry; apply find_None_iff; exact Habsent).
  rewrite (bind_ok _ _ _ _ _ Hnm). reflexivity.
Qed.

(** C7 (amended): when the loop reaches a record that carries its three
    identifiers (sl, l and w present and truthy) and whose super-layer number
    matches no super layer of the station, one warning is issued, the
    station is left exactly as it was, no exception is raised, and the call
    goes on with the records that follow; this for a dict, for the rows of a
    DataFrame and for a list in which no dict is listed twice. (A record
    that lacks l or w, or has a falsy one, raises the invalid-input error
    before the super layer is looked up.) *)
Theorem absent_super_layer_skipped (w w1 : World) (info : DtInfo)
    (pre post : list record) (r : record) (sls : list SuperLayer.t) :
  constructed (self w) ->
  records_of info = Some (pre ++ r :: post) ->
  for_each set_cell_attrs_item pre w = (Ok tt, w1) ->
  _super_layers (self w1) = Some sls ->
  well_identified r = true ->
  (forall s, In s sls ->
     py_eq (PyInt (SuperLayer.number s)) (identifier r "sl") = false) ->
  exists nm,
    name w1 = (Ok nm, w1) /\
    set_cell_attrs_item r w1 =
      (Ok tt,
       {| self := self w1;
          trace := trace w1 ++ [Warn (SuperLayerDoesNotExist (identifier r "sl") nm)] |}) /\
    set_cell_attrs info w =
      for_each set_cell_attrs_item post
        {| self := self w1;
           trace := trace w1 ++ [Warn (SuperLayerDoesNotExist (identifier r "sl") nm)] |}.
Proof.
  intros Hc Hinfo Hpre Hsls Hid Habsent.
  assert (Hc1 : constructed (self w1)).
  { eapply keeps_constructed; [| exact Hc].
    eapply (preserving_for_each set_cell_attrs_item pre
              preserving_set_cell_attrs_item), Hpre. }
  destruct (name_constructed w1 Hc1) as [nm Hnm].
  pose proof (absent_item_run w1 r sls nm Hsls Hnm Hid Habsent) as Hitem.
  exists nm. split; [exact Hnm |]. split; [exact Hitem |].
  rewrite (set_cell_attrs_records _ _ _ Hinfo).
  rewrite (for_each_app _ _ _ _ _ Hpre). cbn [for_each].
  rewrite (bind_ok _ _ _ _ _ Hitem). reflexivity.
Qed.

Lemma absent_super_layer_skipped_witness :
  exists nm,
    name demo_world = (Ok nm, demo_world) /\
    set_cell_attrs_item rec_sl99 demo_world =
      (Ok tt,
       {| self := self demo_world;
          trace := trace demo_world
                   ++ [Warn (SuperLayerDoesNotExist (identifier rec_sl99 "sl") nm)] |}) /\
    set_cell_attrs (InfoDataFrame [rec_sl99; rec_time]) demo_world =
      for_each set_cell_attrs_item [rec_time]
        {| self := self demo_world;
           trace := trace demo_world
                    ++ [Warn (SuperLayerDoesNotExist (identifier rec_sl99 "sl") nm)] |}.
Proof.
  apply (absent_super_layer_skipped demo_world demo_world
           (InfoDataFrame [rec_sl99; rec_time]) [] [rec_time] rec_sl99
           [demo_super_layer 1; demo_super_layer 3]).
  - repeat split; vm_compute; eauto.
  - reflexivity.
  - reflexivity.
  - vm_compute. reflexivity.
  - vm_compute. reflexivity.
  - intros s [<- | [<- | []]]; vm_compute; reflexivity.
Defined.




(** ** In-place update of the first match *)






Lemma find_update_first_None {A} (p : A -> bool) (f : A -> A) (l : list A) :
  find p l = None -> update_first p f l = l.
Proof.
  induction l as [|a l IH]; simpl; [reflexivity |].
  destruct (p a); [discriminate |]. intros H. rewrite (IH H). reflexivity.
Qed.


(** ** The assignment loop *)



Lemma update_first_at_found {A} (p : A -> bool) (f g : A -> A) (l : list A) (a : A) :
  find p l = Some a -> g a = f a -> update_first p g l = update_first p f l.
Proof.
  induction l as [|b l IH]; simpl; [discriminate |].
  destruct (p b); intros H E.
  - inversion H; subst. rewrite E. reflexivity.
  - rewrite (IH H E). reflexivity.
Qed.

Lemma update_cell_at_referenced (r : CellRef) (f : Cell.t -> Cell.t)
    (sls : list SuperLayer.t) (c : Cell.t) :
  referenced r sls = Some c ->
  update_cell r (fun _ => f c) sls = update_cell r f sls.
Proof.
  unfold referenced, update_cell. intros H.
  destruct (find _ sls) as [s|] eqn:Hs; [| discriminate].
  apply (update_first_at_found _ _ _ _ s Hs). f_equal.
  unfold SuperLayer.layer in H.
  destruct (find _ (SuperLayer.layers s)) as [ly|] eqn:Hly; [| discriminate].
  apply (update_first_at_found _ _ _ _ ly Hly). f_equal.
  unfold Layer.cell in H.
  apply (update_first_at_found _ _ _ _ c H). reflexivity.
Qed.

















(** ** Invariants of a run *)

Section Respects.
Variable R : World -> World -> Prop.
Hypothesis R_refl : forall w, R w w.
Hypothesis R_trans : forall w1 w2 w3, R w1 w2 -> R w2 w3 -> R w1 w3.

Lemma respects_pure {A} (m : M A) :
  (forall w, snd (m w) = w) -> respects R m.
Proof.
  intros H w r w' E. specialize (H w). rewrite E in H. cbn in H. subst. apply R_refl.
Qed.

Lemma respects_bind {A B} (m : M A) (f : A -> M B) :
  respects R m -> (forall a, respects R (f a)) -> respects R (m ≫= f).
Proof.
  intros Hm Hf w r w'. rewrite bind_run.
  destruct (m w) as [[a|e|u] w1] eqn:E; intros H.
  - eapply R_trans; [eapply Hm, E | eapply Hf, H].
  - inversion H; subst. eapply Hm, E.
  - inversion H; subst. eapply Hm, E.
Qed.

Lemma respects_for_each {A} (body : A -> M unit) (l : list A) :
  (forall x, respects R (body x)) -> respects R (for_each body l).
Proof.
  intros Hb. induction l as [|x l IH]; cbn [for_each].
  - apply respects_pure. reflexivity.
  - apply respects_bind; auto.
Qed.

Lemma respects_attr {A} (nm : string) (get : Station -> option A) :
  respects R (attr nm get).
Proof.
  apply respects_pure. intros w. unfold attr. destruct (get (self w)); reflexivity.
Qed.

Lemma respects_set_cell_attrs_item (r : record) :
  (forall c k v, respects R (setattr c k v)) ->
  (forall wn, respects R (emit (Warn wn))) ->
  respects R (set_cell_attrs_item r).
Proof.
  intros Hset Hemit.
  unfold set_cell_attrs_item, pop.
  destruct (negb _); [apply respects_pure; reflexivity |].
  unfold locate_and_assign, super_layer, name.
  apply respects_bind.
  { apply respects_bind; [apply respects_attr |].
    intros a. apply respects_pure. reflexivity. }
  intros [s|].
  - apply respects_bind.
    { apply respects_bind; [apply respects_attr |].
      intros a. apply respects_pure. reflexivity. }
    intros found. apply respects_bind.
    { destruct found; apply respects_pure; reflexivity. }
    intros ly. apply respects_bind.
    { destruct ly; apply respects_pure; reflexivity. }
    intros cell. apply respects_for_each. intros kv. apply Hset.
  - apply respects_bind; [| intros nm; apply Hemit].
    repeat (apply respects_bind; [apply respects_attr | intros ?]).
    apply respects_pure. reflexivity.
Qed.

(** The ingestion respects whatever its assignments and warnings respect. *)
Lemma respects_set_cell_attrs (info : DtInfo) :
  (forall c k v, respects R (setattr c k v)) ->
  (forall wn, respects R (emit (Warn wn))) ->
  respects R (set_cell_attrs info).
Proof.
  intros Hset Hemit. unfold set_cell_attrs.
  destruct info as [d|rows|l|dicts entries|];
    try (apply respects_for_each; intros r;
         apply respects_set_cell_attrs_item; assumption);
    [| apply respects_pure; reflexivity].
  revert dicts. induction entries as [|i entries IH]; intros dicts;
    cbn [for_each_shared]; [apply respects_pure; reflexivity |].
  destruct (dicts !! i); [| apply respects_pure; reflexivity].
  apply respects_bind; [apply respects_set_cell_attrs_item; assumption |].
  intros _. apply IH.
Qed.
End Respects.

Lemma map_update_first {A B} (p : A -> bool) (f : A -> A) (g : A -> B)
    (l : list A) :
  (forall x, g (f x) = g x) -> map g (update_first p f l) = map g l.
Proof.
  intros H. induction l as [|a l IH]; cbn [update_first map]; [reflexivity |].
  destruct (p a); cbn [map]; [rewrite H | rewrite IH]; reflexivity.
Qed.

Lemma skeleton_update_cell (r : CellRef) (F : Cell.t -> Cell.t)
    (sls : list SuperLayer.t) :
  (forall c, Cell.number (F c) = Cell.number c) ->
  skeleton (update_cell r F sls) = skeleton sls.
Proof.
  intros HF. unfold update_cell, skeleton.
  apply map_update_first. intros s. cbn [SuperLayer.number SuperLayer.layers].
  f_equal. apply map_update_first. intros ly. cbn [Layer.number Layer.cells].
  f_equal. apply map_update_first, HF.
Qed.

Lemma same_skeleton_refl (w : World) : same_skeleton w w.
Proof. intros sls H. eauto. Qed.

Lemma same_skeleton_trans (w1 w2 w3 : World) :
  same_skeleton w1 w2 -> same_skeleton w2 w3 -> same_skeleton w1 w3.
Proof.
  intros H12 H23 sls H. destruct (H12 sls H) as (sls2 & H2 & E2).
  destruct (H23 sls2 H2) as (sls3 & H3 & E3). exists sls3. split; congruence.
Qed.

(** X2: Whatever the input, and whether the call ends normally or with an
    exception, as long as it ends within this module (it assigns to no name
    that the cell class defines itself), [set_cell_attrs] leaves the wheel,
    sector and number of the station, its pose and its transformer as they
    were, only adds warnings to the record of the run, and keeps the
    numbering of the tree: no super layer, layer or cell is added, removed,
    reordered or renumbered. *)
Theorem set_cell_attrs_keeps_geometry (info : DtInfo) (w w' : World)
    (res : result unit) :
  set_cell_attrs info w = (res, w') ->
  (forall why, res <> Undetermined why) ->
  _wheel (self w') = _wheel (self w) /\
  _sector (self w') = _sector (self w) /\
  _number (self w') = _number (self w) /\
  frame (self w') = frame (self w) /\
  transformer (self w') = transformer (self w) /\
  (exists t, trace w' = trace w ++ t /\
             forall e, In e t -> exists msg, e = Warn msg) /\
  same_skeleton w w'.
Proof.
  intros H _.
  pose proof (preserving_set_cell_attrs info w res w' H)
    as (K1 & K2 & K3 & K4 & K5 & _ & _).
  repeat (split; [assumption |]). clear K1 K2 K3 K4 K5. split.
  - revert w res w' H.
    apply (respects_set_cell_attrs
             (fun w w' => exists t, trace w' = trace w ++ t /\
                                    forall e, In e t -> exists msg, e = Warn msg)).
    + intros w. exists []. split; [symmetry; apply app_nil_r | intros e []].
    + intros w1 w2 w3 (t1 & E1 & W1) (t2 & E2 & W2). exists (t1 ++ t2).
      split; [rewrite E2, E1; symmetry; apply app_assoc |].
      intros e He. apply in_app_or in He as [He | He]; auto.
    + intros [r|] k v w r0 w' E; unfold setattr in E;
        exists []; (split; [| intros e []]); rewrite app_nil_r.
      * unfold attr in E. rewrite bind_run in E.
        destruct (_super_layers (self w)) as [sls|]; [| inversion E; reflexivity].
        destruct (referenced r sls) as [c|]; [| inversion E; reflexivity].
        rewrite bind_run in E. unfold lift in E.
        destruct (Cell.setattr c k v); inversion E; reflexivity.
      * inversion E; reflexivity.
    + intros wn w r w' E. inversion E. cbn. exists [Warn wn].
      split; [reflexivity |]. intros e [<- | []]. eauto.
  - revert w res w' H.
    apply (respects_set_cell_attrs same_skeleton same_skeleton_refl
             same_skeleton_trans).
    + intros [r|] k v w r0 w' E; unfold setattr in E;
        [| inversion E; apply same_skeleton_refl].
      unfold attr in E. rewrite bind_run in E.
      destruct (_super_layers (self w)) as [sls|] eqn:Hs;
        [| inversion E; apply same_skeleton_refl].
      destruct (referenced r sls) as [c|] eqn:Hc;
        [| inversion E; apply same_skeleton_refl].
      rewrite bind_run in E. unfold lift in E. unfold Cell.setattr in E.
      destruct (existsb _ _); [inversion E; apply same_skeleton_refl |].
      inversion E; subst; clear E.
      intros sls0 H0. rewrite Hs in H0. inversion H0; subst.
      eexists. split; [reflexivity |].
      change {| Cell.number := Cell.number c;
                Cell.attrs := <[k := v]> (Cell.attrs c);
                Cell.own := Cell.own c |} with (stored k v c).
      rewrite (update_cell_at_referenced r (stored k v) sls0 c Hc).
      apply skeleton_update_cell. reflexivity.
    + intros wn w r w' E. inversion E. intros sls Hs. cbn. eauto.
Qed.

Lemma set_cell_attrs_keeps_geometry_witness :
  _wheel (self (snd (set_cell_attrs (InfoList [rec_time; rec_sl99; rec_no_wire])
                       demo_world))) = _wheel (self demo_world) /\
  _sector (self (snd (set_cell_attrs (InfoList [rec_time; rec_sl99; rec_no_wire])
                        demo_world))) = _sector (self demo_world) /\
  _number (self (snd (set_cell_attrs (InfoList [rec_time; rec_sl99; rec_no_wire])
                        demo_world))) = _number (self demo_world) /\
  frame (self (snd (set_cell_attrs (InfoList [rec_time; rec_sl99; rec_no_wire])
                      demo_world))) = frame (self demo_world) /\
  transformer (self (snd (set_cell_attrs (InfoList [rec_time; rec_sl99; rec_no_wire])
                            demo_world))) = transformer (self demo_world) /\
  (exists t,
     trace (snd (set_cell_attrs (InfoList [rec_time; rec_sl99; rec_no_wire])
                   demo_world)) = trace demo_world ++ t /\
     forall e, In e t -> exists msg, e = Warn msg) /\
  same_skeleton demo_world
    (snd (set_cell_attrs (InfoList [rec_time; rec_sl99; rec_no_wire]) demo_world)).
Proof.
  apply (set_cell_attrs_keeps_geometry
           (InfoList [rec_time; rec_sl99; rec_no_wire]) demo_world _
           (fst (set_cell_attrs (InfoList [rec_time; rec_sl99; rec_no_wire])
                   demo_world))).
  - vm_compute. reflexivity.
  - intros why. vm_compute. discriminate.
Defined.




(** ** Running the constructor forwards *)

Lemma wheel_setter_ok (v : Z) (w : World) :
  -2 <= v <= 2 ->
  wheel_setter v w = (Ok tt, {| self := with_wheel v (self w); trace := trace w |}).
Proof.
  intros H. unfold wheel_setter.
  destruct (Z.ltb_spec v (-2)); [lia |]. destruct (Z.gtb_spec v 2); [lia |].
  reflexivity.
Qed.

Lemma sector_setter_ok (v : Z) (w : World) :
  1 <= v <= 14 ->
  sector_setter v w = (Ok tt, {| self := with_sector v (self w); trace := trace w |}).
Proof.
  intros H. unfold sector_setter.
  destruct (Z.ltb_spec v 1); [lia |]. destruct (Z.gtb_spec v 14); [lia |].
  reflexivity.
Qed.

Lemma number_setter_ok (v : Z) (w : World) :
  1 <= v <= 4 ->
  number_setter v w = (Ok tt, {| self := with_number v (self w); trace := trace w |}).
Proof.
  intros H. unfold number_setter.
  destruct (Z.ltb_spec v 1); [lia |]. destruct (Z.gtb_spec v 4); [lia |].
  reflexivity.
Qed.

Lemma DTGEOMETRY_get_ok {A} (a : string) (k : list Z) (x : result A) (v : A)
    (w : World) :
  x = Ok v ->
  DTGEOMETRY_get a k x w =
    (Ok v, {| self := self w; trace := trace w ++ [GeometryGet a k] |}).
Proof. intros ->. reflexivity. Qed.

Lemma DTGEOMETRY_get_raise {A} (a : string) (k : list Z) (x : result A) (e : exn)
    (w : World) :
  x = Raise e ->
  DTGEOMETRY_get a k x w =
    (Raise e, {| self := self w; trace := trace w ++ [GeometryGet a k] |}).
Proof. intros ->. reflexivity. Qed.

Lemma with_super_layers_id (s : Station) (sls : list SuperLayer.t) :
  _super_layers s = Some sls -> with_super_layers sls s = s.
Proof. destruct s. cbn. intros ->. reflexivity. Qed.

Lemma build_loop_run (G : Geometry) (mk : Z -> SuperLayer.t) (ids : list Z)
    (w : World) (sls : list SuperLayer.t) :
  _super_layers (self w) = Some sls ->
  (forall rawId parent, In rawId ids -> SuperLayer_init G rawId parent = Ok (mk rawId)) ->
  for_each (fun rawId : Z =>
      emit (SuperLayerBuilt rawId) ;;
      sl ← (fun w => lift (SuperLayer_init G rawId (self w)) w) ;
      _add_super_layer sl) ids w =
    (Ok tt,
     {| self := with_super_layers (sls ++ map mk ids) (self w);
        trace := trace w ++ map SuperLayerBuilt ids |}).
Proof.
  revert w sls. induction ids as [|i ids IH]; intros w sls Hs Hmk; cbn [for_each map].
  - rewrite !app_nil_r, (with_super_layers_id _ _ Hs). destruct w; reflexivity.
  - rewrite bind_run.
    assert (E : (emit (SuperLayerBuilt i) ;;
                 sl ← (fun w => lift (SuperLayer_init G i (self w)) w) ;
                 _add_super_layer sl) w =
                (Ok tt, {| self := with_super_layers (sls ++ [mk i]) (self w);
                           trace := trace w ++ [SuperLayerBuilt i] |})).
    { rewrite bind_run. cbn [emit]. rewrite bind_run. unfold lift at 1. cbn [self].
      rewrite (Hmk i _ (or_introl eq_refl)). unfold _add_super_layer.
      erewrite bind_ok by (apply attr_ok; exact Hs). reflexivity. }
    rewrite E.
    rewrite (IH {| self := with_super_layers (sls ++ [mk i]) (self w);
                   trace := trace w ++ [SuperLayerBuilt i] |}
               (sls ++ [mk i]) eq_refl)
      by (intros; apply Hmk; right; assumption).
    cbn [self trace]. rewrite <- !app_assoc. reflexivity.
Qed.

Ltac run_attr :=
  match goal with
  | |- context [(attr ?nm ?get ≫= ?f) ?w] =>
      rewrite (bind_ok (attr nm get) f w w _ (attr_ok nm get w _ eq_refl))
  end.

Ltac run_modify_goal :=
  rewrite bind_run;
  cbn [modify self trace with_frame with_wheel with_sector with_number frame
       frame_with_id frame_with_local_center frame_with_global_center
       frame_with_direction frame_with_bounds _wheel _sector _number
       transformer _super_layers _id _x_local _y_local _z_local _x_global
       _y_global _z_global _direction _bounds Station_new DTFrame_new app].

(** X4: With wheel, sector and station number in range, a geometry source that
    answers the six queries and a [SuperLayer] constructor that succeeds on
    each enumerated identifier, the constructor call without [dt_info]
    returns a station that holds the three numbers, the pose read from the
    source (the identifier, the local and the global centre coordinate by
    coordinate, the direction and the bounds), the transformer with the
    three transforms registered for the face orientation, the direction and
    the global centre, and one super layer per enumerated identifier, in
    the order of the enumeration; the source was asked exactly once for the
    identifier and for each pose attribute, then the three transforms were
    registered, then the super layers were enumerated and built one by
    one. *)
Theorem construction_succeeds (G : Geometry) (wheel sector station id : Z)
    (lc gc d b : vec3) (ids : list Z) (mk : Z -> SuperLayer.t) :
  -2 <= wheel <= 2 -> 1 <= sector <= 14 -> 1 <= station <= 4 ->
  geo_rawId G wheel sector station = Ok id ->
  geo_LocalPosition G id = Ok lc ->
  geo_GlobalPosition G id = Ok gc ->
  geo_NormalVector G id = Ok d ->
  geo_Bounds G id = Ok b ->
  geo_SuperLayers G id = Ok ids ->
  (forall rawId parent, In rawId ids -> SuperLayer_init G rawId parent = Ok (mk rawId)) ->
  exists st w,
    Station_call G wheel sector station None = (Ok st, w) /\
    _wheel st = Some wheel /\ _sector st = Some sector /\ _number st = Some station /\
    _id (frame st) = Some id /\
    _x_local (frame st) = Some (vx lc) /\
    _y_local (frame st) = Some (vy lc) /\
    _z_local (frame st) = Some (vz lc) /\
    _x_global (frame st) = Some (vx gc) /\
    _y_global (frame st) = Some (vy gc) /\
    _z_global (frame st) = Some (vz gc) /\
    _direction (frame st) = Some d /\
    _bounds (frame st) = Some b /\
    transformer st =
      Some (registered (face_orientation wheel sector) d
              (V3 (vx gc) (vy gc) (vz gc))) /\
    _super_layers st = Some (map mk ids) /\
    trace w =
      [ GeometryGet "rawId" [wheel; sector; station];
        GeometryGet "LocalPosition" [id];
        GeometryGet "GlobalPosition" [id];
        GeometryGet "NormalVector" [id];
        GeometryGet "Bounds" [id] ]
      ++ add_calls (face_orientation wheel sector) d (V3 (vx gc) (vy gc) (vz gc))
      ++ [GeometryGet "SuperLayer" [id]]
      ++ map SuperLayerBuilt ids.
Proof.
  intros Hw Hs Hn G1 G2 G3 G4 G5 G6 Hmk.
  unfold Station_call, __init__.
  rewrite (bind_ok _ _ _ _ _ (wheel_setter_ok wheel _ Hw)).
  rewrite (bind_ok _ _ _ _ _ (sector_setter_ok sector _ Hs)).
  rewrite (bind_ok _ _ _ _ _ (number_setter_ok station _ Hn)).
  rewrite (bind_ok _ _ _ _ _ (DTGEOMETRY_get_ok _ _ _ _ _ G1)).
  run_modify_goal. run_attr.
  rewrite (bind_ok _ _ _ _ _ (DTGEOMETRY_get_ok _ _ _ _ _ G2)).
  run_modify_goal. run_attr.
  rewrite (bind_ok _ _ _ _ _ (DTGEOMETRY_get_ok _ _ _ _ _ G3)).
  run_modify_goal. run_attr.
  rewrite (bind_ok _ _ _ _ _ (DTGEOMETRY_get_ok _ _ _ _ _ G4)).
  run_modify_goal. run_attr.
  rewrite (bind_ok _ _ _ _ _ (DTGEOMETRY_get_ok _ _ _ _ _ G5)).
  run_modify_goal.
  match goal with
  | |- context [(_setup_tranformer ≫= ?f) ?w0] =>
      rewrite (bind_ok _setup_tranformer f w0 _ _
                 (_setup_tranformer_run w0 wheel sector d (vx gc) (vy gc) (vz gc)
                    eq_refl eq_refl eq_refl eq_refl eq_refl eq_refl))
  end.
  run_modify_goal. rewrite bind_run. unfold _build_station.
  run_attr.
  rewrite (bind_ok _ _ _ _ _ (DTGEOMETRY_get_ok _ _ _ _ _ G6)).
  match goal with
  | |- context [for_each _ ids ?w0] =>
      rewrite (build_loop_run G mk ids w0 [] eq_refl Hmk)
  end.
  cbn [mret M_ret self trace].
  eexists _, _. split; [reflexivity |].
  repeat (split; [reflexivity |]).
  cbn [app]. rewrite <- !app_assoc. reflexivity.
Qed.

Lemma construction_succeeds_witness :
  exists st w,
    Station_call (demo_geometry (V3 1 0 0)) 0 4 2 None = (Ok st, w) /\
    _wheel st = Some 0 /\ _sector st = Some 4 /\ _number st = Some 2 /\
    _id (frame st) = Some 342 /\
    _x_local (frame st) = Some (vx (V3 0 0 0)) /\
    _y_local (frame st) = Some (vy (V3 0 0 0)) /\
    _z_local (frame st) = Some (vz (V3 0 0 0)) /\
    _x_global (frame st) = Some (vx (V3 (431 # 1) (39 # 10) (-533 # 1))) /\
    _y_global (frame st) = Some (vy (V3 (431 # 1) (39 # 10) (-533 # 1))) /\
    _z_global (frame st) = Some (vz (V3 (431 # 1) (39 # 10) (-533 # 1))) /\
    _direction (frame st) = Some (V3 1 0 0) /\
    _bounds (frame st) = Some (V3 (218 # 1) (29 # 1) (251 # 1)) /\
    transformer st =
      Some (registered (face_orientation 0 4) (V3 1 0 0)
              (V3 (vx (V3 (431 # 1) (39 # 10) (-533 # 1)))
                  (vy (V3 (431 # 1) (39 # 10) (-533 # 1)))
                  (vz (V3 (431 # 1) (39 # 10) (-533 # 1))))) /\
    _super_layers st = Some (map demo_super_layer [1; 3]) /\
    trace w =
      [ GeometryGet "rawId" [0; 4; 2];
        GeometryGet "LocalPosition" [342];
        GeometryGet "GlobalPosition" [342];
        GeometryGet "NormalVector" [342];
        GeometryGet "Bounds" [342] ]
      ++ add_calls (face_orientation 0 4) (V3 1 0 0)
           (V3 (vx (V3 (431 # 1) (39 # 10) (-533 # 1)))
               (vy (V3 (431 # 1) (39 # 10) (-533 # 1)))
               (vz (V3 (431 # 1) (39 # 10) (-533 # 1))))
      ++ [GeometryGet "SuperLayer" [342]]
      ++ map SuperLayerBuilt [1; 3].
Proof.
  apply (construction_succeeds (demo_geometry (V3 1 0 0)) 0 4 2 342
           (V3 0 0 0) (V3 (431 # 1) (39 # 10) (-533 # 1)) (V3 1 0 0)
           (V3 (218 # 1) (29 # 1) (251 # 1)) [1; 3] demo_super_layer).
  all: try lia.
  all: try reflexivity.
Defined.

(** ** The constructor with [dt_info] *)

Lemma bind_assoc_run {A B C} (m : M A) (f : A -> M B) (g : B -> M C) (w : World) :
  ((m ≫= f) ≫= g) w = (m ≫= fun a => f a ≫= g) w.
Proof. rewrite !bind_run. destruct (m w) as [[a|e|u] w1]; reflexivity. Qed.

Lemma bind_ext_run {A B} (m : M A) (f g : A -> M B) (w : World) :
  (forall a w1, f a w1 = g a w1) -> (m ≫= f) w = (m ≫= g) w.
Proof.
  intros H. rewrite !bind_run.
  destruct (m w) as [[a|e|u] w1]; [apply H | reflexivity | reflexivity].
Qed.

Lemma __init___with_info (G : Geometry) (wheel sector station : Z)
    (info : DtInfo) (w : World) :
  __init__ G wheel sector station (Some info) w =
    (__init__ G wheel sector station None ≫= fun _ => set_cell_attrs info) w.
Proof.
  unfold __init__.
  repeat (rewrite bind_assoc_run; apply bind_ext_run; intros ? ?).
  reflexivity.
Qed.

(** X5: Constructing with [dt_info] is constructing without it and then calling
    [set_cell_attrs]: when the plain construction succeeds, the call with
    [dt_info] returns the station as the ingestion leaves it, and an
    exception of the ingestion is the exception of the constructor call,
    which then returns no station although the tree was built (an
    ingestion that is followed no further leaves the call so too). *)
Theorem construction_then_ingestion (G : Geometry) (wheel sector station : Z)
    (info : DtInfo) (st : Station) (w0 : World) :
  Station_call G wheel sector station None = (Ok st, w0) ->
  Station_call G wheel sector station (Some info) =
    match set_cell_attrs info w0 with
    | (Ok _, w1) => (Ok (self w1), w1)
    | (Raise e, w1) => (Raise e, w1)
    | (Undetermined u, w1) => (Undetermined u, w1)
    end.
Proof.
  unfold Station_call. rewrite __init___with_info, bind_run.
  destruct (__init__ G wheel sector station None _) as [[[]|e|u] w] eqn:E;
    intros H; inversion H; subst.
  reflexivity.
Qed.

Lemma construction_then_ingestion_witness :
  Station_call (demo_geometry (V3 1 0 0)) 0 4 2 (Some (InfoList [rec_time; rec_no_wire])) =
    match set_cell_attrs (InfoList [rec_time; rec_no_wire]) demo_world with
    | (Ok _, w1) => (Ok (self w1), w1)
    | (Raise e, w1) => (Raise e, w1)
    | (Undetermined u, w1) => (Undetermined u, w1)
    end.
Proof.
  apply (construction_then_ingestion (demo_geometry (V3 1 0 0)) 0 4 2
           (InfoList [rec_time; rec_no_wire]) demo_station demo_world).
  vm_compute. reflexivity.
Defined.

(** ** A geometry source that fails *)

(** X6: When the geometry source raises on the identifier or on one of the four
    pose attributes (the queries before it answering), the constructor call
    raises that same exception; nothing but geometry queries has happened by
    then: no transform is registered, no super layer built, and the object
    has neither a transformer nor a list of super layers. *)
Theorem geometry_failure_aborts (G : Geometry) (wheel sector station : Z)
    (info : option DtInfo) (e : exn) :
  -2 <= wheel <= 2 -> 1 <= sector <= 14 -> 1 <= station <= 4 ->
  geo_rawId G wheel sector station = Raise e \/
  (exists id, geo_rawId G wheel sector station = Ok id /\
     (geo_LocalPosition G id = Raise e \/
      (exists lc, geo_LocalPosition G id = Ok lc) /\
      (geo_GlobalPosition G id = Raise e \/
       (exists gc, geo_GlobalPosition G id = Ok gc) /\
       (geo_NormalVector G id = Raise e \/
        (exists d, geo_NormalVector G id = Ok d) /\
        geo_Bounds G id = Raise e)))) ->
  exists w,
    Station_call G wheel sector station info = (Raise e, w) /\
    transformer (self w) = None /\
    _super_layers (self w) = None /\
    forall ev, In ev (trace w) -> exists a k, ev = GeometryGet a k.
Proof.
  intros Hw Hs Hn Hfail. unfold Station_call, __init__.
  rewrite (bind_ok _ _ _ _ _ (wheel_setter_ok wheel _ Hw)).
  rewrite (bind_ok _ _ _ _ _ (sector_setter_ok sector _ Hs)).
  rewrite (bind_ok _ _ _ _ _ (number_setter_ok station _ Hn)).
  assert (Hev : forall (l : list event),
            Forall (fun ev => exists a k, ev = GeometryGet a k) l ->
            forall ev, In ev l -> exists a k, ev = GeometryGet a k).
  { intros l Hl ev Hin. rewrite Forall_forall in Hl. apply Hl.
    apply list_elem_of_In. exact Hin. }
  destruct Hfail as [G1 | (id & G1 & Hfail)].
  { rewrite (bind_raise _ _ _ _ _ (DTGEOMETRY_get_raise _ _ _ _ _ G1)).
    eexists. split; [reflexivity |]. repeat split. apply Hev.
    repeat constructor; eauto. }
  rewrite (bind_ok _ _ _ _ _ (DTGEOMETRY_get_ok _ _ _ _ _ G1)).
  run_modify_goal. run_attr.
  destruct Hfail as [G2 | ((lc & G2) & Hfail)].
  { rewrite (bind_raise _ _ _ _ _ (DTGEOMETRY_get_raise _ _ _ _ _ G2)).
    eexists. split; [reflexivity |]. repeat split. apply Hev.
    repeat constructor; eauto. }
  rewrite (bind_ok _ _ _ _ _ (DTGEOMETRY_get_ok _ _ _ _ _ G2)).
  run_modify_goal. run_attr.
  destruct Hfail as [G3 | ((gc & G3) & Hfail)].
  { rewrite (bind_raise _ _ _ _ _ (DTGEOMETRY_get_raise _ _ _ _ _ G3)).
    eexists. split; [reflexivity |]. repeat split. apply Hev.
    repeat constructor; eauto. }
  rewrite (bind_ok _ _ _ _ _ (DTGEOMETRY_get_ok _ _ _ _ _ G3)).
  run_modify_goal. run_attr.
  destruct Hfail as [G4 | ((d & G4) & G5)].
  { rewrite (bind_raise _ _ _ _ _ (DTGEOMETRY_get_raise _ _ _ _ _ G4)).
    eexists. split; [reflexivity |]. repeat split. apply Hev.
    repeat constructor; eauto. }
  rewrite (bind_ok _ _ _ _ _ (DTGEOMETRY_get_ok _ _ _ _ _ G4)).
  run_modify_goal. run_attr.
  rewrite (bind_raise _ _ _ _ _ (DTGEOMETRY_get_raise _ _ _ _ _ G5)).
  eexists. split; [reflexivity |]. repeat split. apply Hev.
  repeat constructor; eauto.
Qed.

Lemma geometry_failure_aborts_witness :
  exists w,
    Station_call no_normal_geometry 0 4 2 None
    = (Raise (GeometryError "NormalVector"), w) /\
    transformer (self w) = None /\
    _super_layers (self w) = None /\
    forall ev, In ev (trace w) -> exists a k, ev = GeometryGet a k.
Proof.
  apply (geometry_failure_aborts no_normal_geometry 0 4 2 None
           (GeometryError "NormalVector")).
  - lia.
  - lia.
  - lia.
  - right. exists 342. split; [reflexivity |].
    right. split; [eexists; reflexivity |].
    right. split; [eexists; reflexivity |].
    left. reflexivity.
Defined.

(** ** Two records for one cell *)




(** ** The registered matrices, entry by entry *)

(** X8: In every constructed Station, with s the face-orientation sign, the
    phi natural view is the diagonal matrix diag(s, -s, -1) and the eta
    natural view is diag(-s, s, -1): each is a half turn about the x or the
    y axis, of determinant +1. The x axis of the Station->CMS rotation is
    (-s dy, s dx, 0) for the measured normal (dx, dy, dz): it is horizontal
    whatever the normal, and the determinant of that rotation is
    dx^2 + dy^2. *)
Theorem registered_matrices (G : Geometry) (wheel sector station : Z)
    (info : option DtInfo) (st : Station) (w : World) :
  Station_call G wheel sector station info = (Ok st, w) ->
  exists d tm cms phi eta,
    _direction (frame st) = Some d /\
    transformer st = Some tm /\
    transforms tm !! CMS_key = Some cms /\
    transforms tm !! NvPhi_key = Some phi /\
    transforms tm !! NvEta_key = Some eta /\
    mat3_eqb (rotation_matrix phi)
      (diag (face_orientation wheel sector) (- face_orientation wheel sector) (-1))
      = true /\
    mat3_eqb (rotation_matrix eta)
      (diag (- face_orientation wheel sector) (face_orientation wheel sector) (-1))
      = true /\
    (det (rotation_matrix phi) == 1)%Q /\
    (det (rotation_matrix eta) == 1)%Q /\
    (vx (col0 (rotation_matrix cms))
       == - inject_Z (face_orientation wheel sector) * vy d)%Q /\
    (vy (col0 (rotation_matrix cms))
       == inject_Z (face_orientation wheel sector) * vx d)%Q /\
    (vz (col0 (rotation_matrix cms)) == 0)%Q /\
    (det (rotation_matrix cms) == vx d * vx d + vy d * vy d)%Q.
Proof.
  intros H.
  apply Station_call_ok in H
    as (-> & _ & _ & _ & id & lc & gc & d & b & _ & _ & _ & _ & _ & _ & _ & _
        & Hd & _ & _ & _ & Htm & _).
  exists d. eexists _, _, _, _.
  split; [exact Hd |]. split; [exact Htm |].
  rewrite registered_CMS, registered_NvPhi, registered_NvEta.
  repeat (split; [reflexivity |]). cbn [rotation_matrix].
  destruct d as [dx dy dz].
  destruct (face_orientation_cases wheel sector) as [-> | ->];
    repeat split; try (vm_compute; reflexivity);
    unfold det, triple, dot, cross, col0, col1, col2, T, array2d, vmul, array,
      inject_Z;
    cbn [vx vy vz row0 row1 row2]; ring.
Qed.

Lemma registered_matrices_witness :
  exists d tm cms phi eta,
    _direction (frame demo_station) = Some d /\
    transformer demo_station = Some tm /\
    transforms tm !! CMS_key = Some cms /\
    transforms tm !! NvPhi_key = Some phi /\
    transforms tm !! NvEta_key = Some eta /\
    mat3_eqb (rotation_matrix phi)
      (diag (face_orientation 0 4) (- face_orientation 0 4) (-1)) = true /\
    mat3_eqb (rotation_matrix eta)
      (diag (- face_orientation 0 4) (face_orientation 0 4) (-1)) = true /\
    (det (rotation_matrix phi) == 1)%Q /\
    (det (rotation_matrix eta) == 1)%Q /\
    (vx (col0 (rotation_matrix cms)) == - inject_Z (face_orientation 0 4) * vy d)%Q /\
    (vy (col0 (rotation_matrix cms)) == inject_Z (face_orientation 0 4) * vx d)%Q /\
    (vz (col0 (rotation_matrix cms)) == 0)%Q /\
    (det (rotation_matrix cms) == vx d * vx d + vy d * vy d)%Q.
Proof.
  apply (registered_matrices (demo_geometry (V3 1 0 0)) 0 4 2 None
           demo_station demo_world).
  vm_compute. reflexivity.
Defined.

(** ** The face orientation on wheel 0 *)

(** X9: On wheel 0 and for the sectors 1 to 14, the sign is -1 exactly on the
    sectors whose number is 0 or 1 modulo 4: the orientation alternates in
    pairs of consecutive sectors (1 | 2 3 | 4 5 | 6 7 | ... | 12 13 | 14). *)
Theorem wheel0_orientation_pairs (sector : Z) :
  1 <= sector <= 14 ->
  face_orientation 0 sector = if sector mod 4 <? 2 then -1 else 1.
Proof.
  intros H.
  assert (E : sector = 1 \/ sector = 2 \/ sector = 3 \/ sector = 4 \/ sector = 5 \/
              sector = 6 \/ sector = 7 \/ sector = 8 \/ sector = 9 \/ sector = 10 \/
              sector = 11 \/ sector = 12 \/ sector = 13 \/ sector = 14) by lia.
  repeat (destruct E as [-> | E]; [reflexivity |]). subst. reflexivity.
Qed.

Lemma wheel0_orientation_pairs_witness :
  face_orientation 0 9 = if 9 mod 4 <? 2 then -1 else 1.
Proof. apply (wheel0_orientation_pairs 9). lia. Defined.

(** ** The name of a station *)

Lemma names_distinct_true : names_distinct = true.
Proof. vm_compute. reflexivity. Qed.

Lemma valid_configuration_In (wheel sector station : Z) :
  -2 <= wheel <= 2 -> 1 <= sector <= 14 -> 1 <= station <= 4 ->
  In (wheel, (sector, station)) valid_configurations.
Proof.
  intros Hw Hs Hn. unfold valid_configurations.
  apply in_prod; [| apply in_prod].
  - assert (E : wheel = -2 \/ wheel = -1 \/ wheel = 0 \/ wheel = 1 \/ wheel = 2) by lia.
    simpl. intuition auto.
  - assert (E : sector = 1 \/ sector = 2 \/ sector = 3 \/ sector = 4 \/ sector = 5 \/
                sector = 6 \/ sector = 7 \/ sector = 8 \/ sector = 9 \/ sector = 10 \/
                sector = 11 \/ sector = 12 \/ sector = 13 \/ sector = 14) by lia.
    simpl. intuition auto.
  - assert (E : station = 1 \/ station = 2 \/ station = 3 \/ station = 4) by lia.
    simpl. intuition auto.
Qed.

Lemma name_run (w : World) (wheel sector number : Z) :
  _wheel (self w) = Some wheel -> _sector (self w) = Some sector ->
  _number (self w) = Some number ->
  name w = (Ok (station_name wheel sector number), w).
Proof.
  intros Hw Hs Hn. unfold name.
  rewrite (bind_ok _ _ _ _ _ (attr_ok _ _ _ _ Hw)).
  rewrite (bind_ok _ _ _ _ _ (attr_ok _ _ _ _ Hs)).
  rewrite (bind_ok _ _ _ _ _ (attr_ok _ _ _ _ Hn)).
  reflexivity.
Qed.

(** X10: The name of a constructed station is "Wheel w, Sector s, Station n" for
    the wheel, sector and station number given to the constructor, and it
    identifies them: two constructed stations with the same name were built
    for the same wheel, sector and station number. *)
Theorem name_identifies_station (G G' : Geometry)
    (wheel sector station wheel' sector' station' : Z)
    (info info' : option DtInfo) (st st' : Station) (w w' : World) :
  Station_call G wheel sector station info = (Ok st, w) ->
  Station_call G' wheel' sector' station' info' = (Ok st', w') ->
  name w = (Ok (station_name wheel sector station), w) /\
  name w' = (Ok (station_name wheel' sector' station'), w') /\
  (fst (name w) = fst (name w') ->
   wheel = wheel' /\ sector = sector' /\ station = station').
Proof.
  intros H H'.
  apply Station_call_ok in H
    as (-> & Rw & Rs & Rn & id & lc & gc & d & b & _ & _ & _ & _ & _ & Hw & Hs & Hn & _).
  apply Station_call_ok in H'
    as (-> & Rw' & Rs' & Rn' & id' & lc' & gc' & d' & b' & _ & _ & _ & _ & _
        & Hw' & Hs' & Hn' & _).
  rewrite (name_run w _ _ _ Hw Hs Hn), (name_run w' _ _ _ Hw' Hs' Hn').
  split; [reflexivity |]. split; [reflexivity |]. cbn [fst]. intros E.
  assert (E' : station_name wheel sector station
               = station_name wheel' sector' station') by congruence.
  clear E.
  pose proof names_distinct_true as D. unfold names_distinct in D.
  rewrite forallb_forall in D.
  specialize (D _ (valid_configuration_In wheel sector station Rw Rs Rn)).
  rewrite forallb_forall in D.
  specialize (D _ (valid_configuration_In wheel' sector' station' Rw' Rs' Rn')).
  unfold name_of_configuration in D. cbn [fst snd] in D.
  rewrite E', String.eqb_refl in D. cbn [implb] in D.
  unfold configuration_eqb in D. cbn [fst snd] in D.
  apply andb_prop in D as [D D3]. apply andb_prop in D as [D1 D2].
  apply Z.eqb_eq in D1, D2, D3. auto.
Qed.

Lemma name_identifies_station_witness :
  name demo_world = (Ok (station_name 0 4 2), demo_world) /\
  name demo_world = (Ok (station_name 0 4 2), demo_world) /\
  (fst (name demo_world) = fst (name demo_world) -> 0 = 0 /\ 4 = 4 /\ 2 = 2).
Proof.
  apply (name_identifies_station (demo_geometry (V3 1 0 0)) (demo_geometry (V3 1 0 0))
           0 4 2 0 4 2 None None demo_station demo_station demo_world demo_world).
  - vm_compute. reflexivity.
  - vm_compute. reflexivity.
Defined.

(** ** A batch for super layers that do not exist *)

Lemma world_eta (w : World) : {| self := self w; trace := trace w |} = w.
Proof. destruct w; reflexivity. Qed.

Lemma name_trace_irrelevant (s : Station) (t t' : list event) (nm : string) :
  name {| self := s; trace := t |} = (Ok nm, {| self := s; trace := t |}) ->
  name {| self := s; trace := t' |} = (Ok nm, {| self := s; trace := t' |}).
Proof.
  unfold name, attr. rewrite !bind_run. cbn [self].
  destruct (_wheel s); [| discriminate]. rewrite !bind_run. cbn [self].
  destruct (_sector s); [| discriminate]. rewrite !bind_run. cbn [self].
  destruct (_number s); [| discriminate].
  cbn [mret M_ret]. intros H. inversion H. reflexivity.
Qed.

(** X11: A batch of records, each a dict of its own, in which every record
    carries its three identifiers and names a super layer the station does
    not have, is ingested to the end without an exception: the station is
    left exactly as it was, and one warning per record has been issued, in
    the order of the records. *)
Theorem absent_batch_only_warns (w : World) (info : DtInfo) (rs : list record)
    (sls : list SuperLayer.t) :
  records_of info = Some rs ->
  constructed (self w) ->
  _super_layers (self w) = Some sls ->
  Forall (fun r =>
            well_identified r = true /\
            forall s, In s sls ->
              py_eq (PyInt (SuperLayer.number s)) (identifier r "sl") = false) rs ->
  exists nm,
    name w = (Ok nm, w) /\
    set_cell_attrs info w =
      (Ok tt,
       {| self := self w;
          trace := trace w
                   ++ map (fun r => Warn (SuperLayerDoesNotExist (identifier r "sl") nm))
                          rs |}).
Proof.
  intros Hinfo Hc Hsls Hrs. destruct (name_constructed w Hc) as [nm Hnm].
  exists nm. split; [exact Hnm |].
  rewrite (set_cell_attrs_records info rs w Hinfo). clear Hinfo.
  destruct w as [s t]. cbn [self trace] in *. revert t Hnm.
  induction Hrs as [|r rs [Hid Habsent] _ IH]; intros t Hnm; cbn [for_each map].
  - rewrite app_nil_r. reflexivity.
  - rewrite (bind_ok _ _ _ _ _
               (absent_item_run {| self := s; trace := t |} r sls nm Hsls Hnm Hid Habsent)).
    cbn [self trace]. rewrite IH by (eapply name_trace_irrelevant, Hnm).
    rewrite <- app_assoc. reflexivity.
Qed.

Lemma absent_batch_only_warns_witness :
  exists nm,
    name demo_world = (Ok nm, demo_world) /\
    set_cell_attrs (InfoList [rec_sl99; rec_sl77]) demo_world =
      (Ok tt,
       {| self := self demo_world;
          trace := trace demo_world
                   ++ map (fun r => Warn (SuperLayerDoesNotExist (identifier r "sl") nm))
                          [rec_sl99; rec_sl77] |}).
Proof.
  apply (absent_batch_only_warns demo_world (InfoList [rec_sl99; rec_sl77])
           [rec_sl99; rec_sl77] [demo_super_layer 1; demo_super_layer 3]).
  - reflexivity.
  - repeat split; vm_compute; eauto.
  - vm_compute. reflexivity.
  - repeat constructor; try (vm_compute; reflexivity);
      intros s [<- | [<- | []]]; vm_compute; reflexivity.
Defined.

(** ** Assigning wheel, sector or number after the construction *)

(** X12: On a constructed station an assignment to [wheel], [sector] or
    [number] outside its range raises the ValueError and changes nothing;
    inside the range it changes that one attribute and nothing else: the
    other two numbers, the pose, the tree of super layers and the record of
    the run stay as they were and the transformer is not rebuilt, so the
    y axis of the Station->CMS rotation still carries the face orientation
    of the wheel and sector the station was constructed with. *)
Theorem reassignment_keeps_transforms (G : Geometry) (wheel sector station : Z)
    (info : option DtInfo) (st : Station) (w : World) (v : Z) :
  Station_call G wheel sector station info = (Ok st, w) ->
  (v < -2 \/ v > 2 -> exists msg, wheel_setter v w = (Raise (ValueError msg), w)) /\
  (v < 1 \/ v > 14 -> exists msg, sector_setter v w = (Raise (ValueError msg), w)) /\
  (v < 1 \/ v > 4 -> exists msg, number_setter v w = (Raise (ValueError msg), w)) /\
  (-2 <= v <= 2 ->
   exists w',
     wheel_setter v w = (Ok tt, w') /\
     _wheel (self w') = Some v /\ _sector (self w') = Some sector /\
     _number (self w') = Some station /\
     frame (self w') = frame (self w) /\
     transformer (self w') = transformer (self w) /\
     _super_layers (self w') = _super_layers (self w) /\
     trace w' = trace w /\
     cms_y_axis (self w') = Some (vmul (array 0 0 1) (face_orientation wheel sector))) /\
  (1 <= v <= 14 ->
   exists w',
     sector_setter v w = (Ok tt, w') /\
     _wheel (self w') = Some wheel /\ _sector (self w') = Some v /\
     _number (self w') = Some station /\
     frame (self w') = frame (self w) /\
     transformer (self w') = transformer (self w) /\
     _super_layers (self w') = _super_layers (self w) /\
     trace w' = trace w /\
     cms_y_axis (self w') = Some (vmul (array 0 0 1) (face_orientation wheel sector))) /\
  (1 <= v <= 4 ->
   exists w',
     number_setter v w = (Ok tt, w') /\
     _wheel (self w') = Some wheel /\ _sector (self w') = Some sector /\
     _number (self w') = Some v /\
     frame (self w') = frame (self w) /\
     transformer (self w') = transformer (self w) /\
     _super_layers (self w') = _super_layers (self w) /\
     trace w' = trace w /\
     cms_y_axis (self w') = Some (vmul (array 0 0 1) (face_orientation wheel sector))).
Proof.
  intros H.
  apply Station_call_ok in H
    as (-> & _ & _ & _ & id & lc & gc & d & b & _ & _ & _ & _ & _ & Hw & Hs & Hn
        & _ & _ & _ & _ & Htm & _).
  assert (Hy : cms_y_axis (self w)
               = Some (vmul (array 0 0 1) (face_orientation wheel sector))).
  { unfold cms_y_axis. rewrite Htm. cbn [mbind option_bind].
    rewrite registered_CMS. cbn [mbind option_bind rotation_matrix].
    reflexivity. }
  split; [| split; [| split; [| split; [| split]]]].
  - intros Hv. unfold wheel_setter.
    destruct (Z.ltb_spec v (-2)); [eexists; reflexivity |].
    destruct (Z.gtb_spec v 2); [eexists; reflexivity | lia].
  - intros Hv. unfold sector_setter.
    destruct (Z.ltb_spec v 1); [eexists; reflexivity |].
    destruct (Z.gtb_spec v 14); [eexists; reflexivity | lia].
  - intros Hv. unfold number_setter.
    destruct (Z.ltb_spec v 1); [eexists; reflexivity |].
    destruct (Z.gtb_spec v 4); [eexists; reflexivity | lia].
  - intros Hv. eexists. split; [apply (wheel_setter_ok v w Hv) |].
    cbn [self trace]. split; [reflexivity |]. split; [exact Hs |].
    split; [exact Hn |]. repeat (split; [reflexivity |]). exact Hy.
  - intros Hv. eexists. split; [apply (sector_setter_ok v w Hv) |].
    cbn [self trace]. split; [exact Hw |]. split; [reflexivity |].
    split; [exact Hn |]. repeat (split; [reflexivity |]). exact Hy.
  - intros Hv. eexists. split; [apply (number_setter_ok v w Hv) |].
    cbn [self trace]. split; [exact Hw |]. split; [exact Hs |].
    split; [reflexivity |]. repeat (split; [reflexivity |]). exact Hy.
Qed.

Lemma reassignment_keeps_transforms_witness :
  (1 < -2 \/ 1 > 2 ->
   exists msg, wheel_setter 1 demo_world = (Raise (ValueError msg), demo_world)) /\
  (1 < 1 \/ 1 > 14 ->
   exists msg, sector_setter 1 demo_world = (Raise (ValueError msg), demo_world)) /\
  (1 < 1 \/ 1 > 4 ->
   exists msg, number_setter 1 demo_world = (Raise (ValueError msg), demo_world)) /\
  (-2 <= 1 <= 2 ->
   exists w',
     wheel_setter 1 demo_world = (Ok tt, w') /\
     _wheel (self w') = Some 1 /\ _sector (self w') = Some 4 /\
     _number (self w') = Some 2 /\
     frame (self w') = frame (self demo_world) /\
     transformer (self w') = transformer (self demo_world) /\
     _super_layers (self w') = _super_layers (self demo_world) /\
     trace w' = trace demo_world /\
     cms_y_axis (self w') = Some (vmul (array 0 0 1) (face_orientation 0 4))) /\
  (1 <= 1 <= 14 ->
   exists w',
     sector_setter 1 demo_world = (Ok tt, w') /\
     _wheel (self w') = Some 0 /\ _sector (self w') = Some 1 /\
     _number (self w') = Some 2 /\
     frame (self w') = frame (self demo_world) /\
     transformer (self w') = transformer (self demo_world) /\
     _super_layers (self w') = _super_layers (self demo_world) /\
     trace w' = trace demo_world /\
     cms_y_axis (self w') = Some (vmul (array 0 0 1) (face_orientation 0 4))) /\
  (1 <= 1 <= 4 ->
   exists w',
     number_setter 1 demo_world = (Ok tt, w') /\
     _wheel (self w') = Some 0 /\ _sector (self w') = Some 4 /\
     _number (self w') = Some 1 /\
     frame (self w') = frame (self demo_world) /\
     transformer (self w') = transformer (self demo_world) /\
     _super_layers (self w') = _super_layers (self demo_world) /\
     trace w' = trace demo_world /\
     cms_y_axis (self w') = Some (vmul (array 0 0 1) (face_orientation 0 4))).
Proof.
  apply (reassignment_keeps_transforms (demo_geometry (V3 1 0 0)) 0 4 2 None
           demo_station demo_world 1).
  vm_compute. reflexivity.
Defined.

(** ** A list that names a dict more than once *)

Lemma popped_unidentified (d : record) :
  well_identified (snd (pop "w" (snd (pop "l" (snd (pop "sl" d)))))) = false.
Proof.
  apply (well_identified_false _ "sl"); [left; reflexivity |].
  apply identifier_missing. unfold pop. cbn [snd].
  rewrite !lookup_delete_ne by discriminate. apply lookup_delete_eq.
Qed.

Lemma for_each_shared_cons (dicts : list record) (i : nat) (entries : list nat)
    (d : record) (w w1 : World) :
  dicts !! i = Some d ->
  set_cell_attrs_item d w = (Ok tt, w1) ->
  for_each_shared dicts (i :: entries) w =
    for_each_shared
      (<[i := snd (pop "w" (snd (pop "l" (snd (pop "sl" d)))))]> dicts) entries w1.
Proof.
  intros Hd Hrun. cbn [for_each_shared]. rewrite Hd, bind_run, Hrun. reflexivity.
Qed.

Lemma for_each_shared_cons_inv (dicts : list record) (i : nat) (entries : list nat)
    (w w2 : World) :
  for_each_shared dicts (i :: entries) w = (Ok tt, w2) ->
  exists d w1,
    dicts !! i = Some d /\
    set_cell_attrs_item d w = (Ok tt, w1) /\
    for_each_shared
      (<[i := snd (pop "w" (snd (pop "l" (snd (pop "sl" d)))))]> dicts) entries w1
    = (Ok tt, w2).
Proof.
  cbn [for_each_shared]. destruct (dicts !! i) as [d|]; [| discriminate].
  intros H. apply bind_ok_inv in H as ([] & w1 & H1 & H2). eauto.
Qed.

Lemma second_visit_run (pre post : list nat) (i : nat) :
  forall (dicts : list record) (w w1 : World),
  In i pre \/ (exists d, dicts !! i = Some d /\ well_identified d = false) ->
  for_each_shared dicts pre w = (Ok tt, w1) ->
  exists msg,
    for_each_shared dicts (pre ++ i :: post) w = (Raise (ValueError msg), w1).
Proof.
  induction pre as [|j pre IH]; intros dicts w w1 Hi Hpre.
  - destruct Hi as [[] | (d & Hd & Hbad)].
    inversion Hpre; subst. eexists. cbn [app for_each_shared].
    rewrite Hd, bind_run, set_cell_attrs_item_eq, Hbad. reflexivity.
  - apply for_each_shared_cons_inv in Hpre as (dj & w2 & Hdj & Hrun & Hrest).
    cbn [app]. rewrite (for_each_shared_cons _ _ _ _ _ _ Hdj Hrun).
    apply IH; [| exact Hrest].
    destruct (Nat.eq_dec i j) as [-> | Hne].
    + right. eexists. split; [| apply popped_unidentified].
      apply list_lookup_insert_eq. apply lookup_lt_Some in Hdj. exact Hdj.
    + destruct Hi as [[Hi | Hi] | (d & Hd & Hbad)].
      * congruence.
      * left. exact Hi.
      * right. exists d. split; [| exact Hbad].
        rewrite list_lookup_insert_ne by congruence. exact Hd.
Qed.

(** X13: A list that names the same dict a second time is not ingested to the
    end: when the entries before the second mention have been ingested
    without an exception, the loop finds the dict without the identifiers
    its first visit popped and raises the ValueError, whatever the dict
    held, leaving the station as the entries before left it; no later
    entry is looked at. *)
Theorem shared_dict_second_visit (dicts : list record) (pre post : list nat)
    (i : nat) (w w1 : World) :
  In i pre ->
  for_each_shared dicts pre w = (Ok tt, w1) ->
  exists msg,
    set_cell_attrs (InfoListShared dicts (pre ++ i :: post)) w =
      (Raise (ValueError msg), w1).
Proof.
  intros Hi Hpre. cbn [set_cell_attrs].
  apply second_visit_run; [left; exact Hi | exact Hpre].
Qed.

Lemma shared_dict_second_visit_witness :
  exists msg,
    set_cell_attrs
      (InfoListShared [rec_time; rec_sl99] [1%nat; 0%nat; 1%nat; 0%nat])
      demo_world =
      (Raise (ValueError msg),
       snd (for_each_shared [rec_time; rec_sl99] [1%nat; 0%nat] demo_world)).
Proof.
  apply (shared_dict_second_visit [rec_time; rec_sl99] [1%nat; 0%nat] [0%nat] 1%nat
           demo_world).
  - left. reflexivity.
  - vm_compute. reflexivity.
Defined.

Lemma for_each_shared_distinct (entries : list nat) :
  forall (dicts rs : list record) (w : World),
  NoDup entries ->
  Forall2 (fun i r => dicts !! i = Some r) entries rs ->
  for_each_shared dicts entries w = for_each set_cell_attrs_item rs w.
Proof.
  induction entries as [|i entries IH]; intros dicts rs w Hnd Hrs;
    inversion Hrs as [| i0 r es rs' Hr Hrest]; subst; [reflexivity |].
  cbn [for_each_shared for_each]. rewrite Hr.
  apply bind_ext_run. intros [] w1.
  apply NoDup_cons in Hnd as [Hnotin Hnd].
  apply IH; [exact Hnd |].
  clear IH Hrs. induction Hrest as [|j r' es' rs'' Hj _ IH2]; constructor.
  - rewrite list_lookup_insert_ne; [exact Hj |].
    intros ->. apply Hnotin. left.
  - apply IH2.
    + intros Hin. apply Hnotin. right. exact Hin.
    + apply NoDup_cons in Hnd as [_ Hnd]. exact Hnd.
Qed.

(** X14: A list in which no dict is listed twice is ingested dict by dict, in
    the order of the list: the call runs exactly as on the list of the
    dicts' contents, each taken as a dict of its own. *)
Theorem distinct_dicts_as_records (dicts rs : list record) (entries : list nat)
    (w : World) :
  NoDup entries ->
  Forall2 (fun i r => dicts !! i = Some r) entries rs ->
  set_cell_attrs (InfoListShared dicts entries) w = set_cell_attrs (InfoList rs) w.
Proof.
  intros Hnd Hrs. cbn [set_cell_attrs]. apply for_each_shared_distinct; assumption.
Qed.

Lemma distinct_dicts_as_records_witness :
  set_cell_attrs (InfoListShared [rec_time; rec_sl99] [1%nat; 0%nat]) demo_world =
  set_cell_attrs (InfoList [rec_sl99; rec_time]) demo_world.
Proof.
  apply (distinct_dicts_as_records [rec_time; rec_sl99] [rec_sl99; rec_time]
           [1%nat; 0%nat] demo_world).
  - apply NoDup_cons. split; [| apply NoDup_singleton].
    intros H. apply list_elem_of_singleton in H. discriminate H.
  - repeat constructor.
Defined.
